(** * Mars rovers dashboard: the rover availability calculation

    A shallow embedding of [src/public/utils.js] (the second half of
    [src/src/public/client.js]): the date helpers [dateToStringConverter],
    [apodDateToString], [apodStringToDate], [getDateWithTimeString] and the
    manifest callback of [getRoverInfo], together with the fragment of the
    JavaScript runtime they call (strings, [parseInt], [Array], [Date]).

    Numbers are integers of [Z], with [None] for NaN, and strings are strings
    of ASCII characters.  A [Date] holds a time value in milliseconds since
    the epoch, or is an Invalid Date.  The two things the code reads from its
    surroundings, the local time zone and the clock, are the fields of an
    environment [Env] that every function reading them takes as its first
    argument.  What the callback of [getRoverInfo] throws is a [Throw]
    completion; what it writes to the store is the state it returns. *)

From Stdlib Require Import ZArith List String Ascii Bool Lia DecimalString.
From Stdlib Require Import Permutation.
Import ListNotations.
Local Open Scope string_scope.
Local Open Scope Z_scope.

(** * The model *)

(** ** Abrupt completions *)

Inductive Exception : Type := TypeError | RangeError.

Inductive Completion (A : Type) : Type :=
| Normal (a : A)
| Throw (e : Exception).
Arguments Normal {A} a.
Arguments Throw {A} e.

Definition bind {A B : Type} (c : Completion A) (k : A -> Completion B)
  : Completion B :=
  match c with
  | Normal a => k a
  | Throw e => Throw e
  end.

Notation "x <- c ;; k" := (bind c (fun x => k))
  (at level 61, c at next level, right associativity).

Fixpoint mapM {A B : Type} (f : A -> Completion B) (l : list A)
  : Completion (list B) :=
  match l with
  | [] => Normal []
  | a :: l' => b <- f a ;; bs <- mapM f l' ;; Normal (b :: bs)
  end.

(** ** Numbers and strings *)

(** A Number restricted to the values the code meets: an integer or NaN. *)
Definition Number : Type := option Z.
Abbreviation NaN := (@None Z).

Definition num_add (a b : Number) : Number :=
  match a, b with
  | Some x, Some y => Some (x + y)
  | _, _ => NaN
  end.

(** [String(n)] *)
Definition String_of_Z (z : Z) : string := NilZero.string_of_int (Z.to_int z).

Definition String_of_Number (n : Number) : string :=
  match n with
  | Some z => String_of_Z z
  | None => "NaN"
  end.

Fixpoint repeat_char (c : ascii) (n : nat) : string :=
  match n with
  | O => EmptyString
  | S n' => String c (repeat_char c n')
  end.

(** [s.padStart(targetLength, c)] for a one-character pad string. *)
Definition padStart (s : string) (targetLength : nat) (c : ascii) : string :=
  (repeat_char c (targetLength - String.length s) ++ s)%string.

(** [s.substring(a, b)] for [a <= b]; both ends are clamped to the length. *)
Definition js_substring (s : string) (a b : nat) : string :=
  String.substring a (b - a) s.

Definition code (c : ascii) : Z := Z.of_nat (nat_of_ascii c).

(** The white space of ASCII: tab, line feed, vertical tab, form feed,
    carriage return and space. *)
Definition isWhiteSpace (c : ascii) : bool :=
  let n := code c in
  ((9 <=? n) && (n <=? 13)) || (n =? 32).

(** The value of [c] as a digit in the given radix (10 or 16). *)
Definition digitValue (radix : Z) (c : ascii) : option Z :=
  let n := code c in
  if (48 <=? n) && (n <=? 57) then Some (n - 48)
  else if (radix =? 16) && (97 <=? n) && (n <=? 102) then Some (n - 87)
  else if (radix =? 16) && (65 <=? n) && (n <=? 70) then Some (n - 55)
  else None.

Fixpoint trimStart (s : string) : string :=
  match s with
  | String c s' => if isWhiteSpace c then trimStart s' else s
  | EmptyString => s
  end.

(** The longest prefix of digits, read left to right: [acc] is the value so
    far, and the flag tells whether any digit was read. *)
Fixpoint readDigits (radix : Z) (s : string) (acc : Z) (seen : bool)
  : Number :=
  match s with
  | String c s' =>
      match digitValue radix c with
      | Some d => readDigits radix s' (radix * acc + d) true
      | None => if seen then Some acc else NaN
      end
  | EmptyString => if seen then Some acc else NaN
  end.

Definition stripHexPrefix (s : string) : option string :=
  match s with
  | String "0" (String c s') =>
      if (Ascii.eqb c "x" || Ascii.eqb c "X")%bool then Some s' else None
  | _ => None
  end.

Definition parseUnsigned (s : string) : Number :=
  match stripHexPrefix s with
  | Some s' => readDigits 16 s' 0 false
  | None => readDigits 10 s 0 false
  end.

(** [parseInt(s)] with no radix argument. *)
Definition parseInt (s : string) : Number :=
  match trimStart s with
  | String "-" s' => option_map Z.opp (parseUnsigned s')
  | String "+" s' => parseUnsigned s'
  | s' => parseUnsigned s'
  end.

(** ** Dates: day numbers and time values (ECMAScript, "Date Objects") *)

Definition msPerDay : Z := 86400000.
Definition msPerHour : Z := 3600000.
Definition msPerMinute : Z := 60000.
Definition msPerSecond : Z := 1000.

Definition Day (t : Z) : Z := t / msPerDay.
Definition TimeWithinDay (t : Z) : Z := t mod msPerDay.

Definition DaysInYear (y : Z) : Z :=
  if negb (y mod 4 =? 0) then 365
  else if negb (y mod 100 =? 0) then 366
  else if negb (y mod 400 =? 0) then 365
  else 366.

Definition DayFromYear (y : Z) : Z :=
  365 * (y - 1970) + (y - 1969) / 4 - (y - 1901) / 100 + (y - 1601) / 400.

Definition TimeFromYear (y : Z) : Z := msPerDay * DayFromYear y.

(** The year of day number [d]: the largest [y] with [DayFromYear y <= d]
    (lemma [YearFromDay_spec]).  The estimate from the mean length of a year
    is off by at most one year, which the two tests repair. *)
Definition YearFromDay (d : Z) : Z :=
  let y := 1970 + (400 * d) / 146097 in
  if d <? DayFromYear y then y - 1
  else if DayFromYear (y + 1) <=? d then y + 1
  else y.

Definition YearFromTime (t : Z) : Z := YearFromDay (Day t).

Definition InLeapYear (t : Z) : Z :=
  if DaysInYear (YearFromTime t) =? 366 then 1 else 0.

Definition DayWithinYear (t : Z) : Z :=
  Day t - DayFromYear (YearFromTime t).

Definition MonthFromTime (t : Z) : Z :=
  let d := DayWithinYear t in
  let l := InLeapYear t in
  if d <? 31 then 0
  else if d <? 59 + l then 1
  else if d <? 90 + l then 2
  else if d <? 120 + l then 3
  else if d <? 151 + l then 4
  else if d <? 181 + l then 5
  else if d <? 212 + l then 6
  else if d <? 243 + l then 7
  else if d <? 273 + l then 8
  else if d <? 304 + l then 9
  else if d <? 334 + l then 10
  else 11.

Definition DateFromTime (t : Z) : Z :=
  let d := DayWithinYear t in
  let l := InLeapYear t in
  match MonthFromTime t with
  | 0 => d + 1
  | 1 => d - 30
  | 2 => d - 58 - l
  | 3 => d - 89 - l
  | 4 => d - 119 - l
  | 5 => d - 150 - l
  | 6 => d - 180 - l
  | 7 => d - 211 - l
  | 8 => d - 242 - l
  | 9 => d - 272 - l
  | 10 => d - 303 - l
  | _ => d - 333 - l
  end.

(** The number of days of year [y] that precede its month [m] (0 to 11). *)
Definition DaysBeforeMonth (y m : Z) : Z :=
  let l := if DaysInYear y =? 366 then 1 else 0 in
  match m with
  | 0 => 0
  | 1 => 31
  | 2 => 59 + l
  | 3 => 90 + l
  | 4 => 120 + l
  | 5 => 151 + l
  | 6 => 181 + l
  | 7 => 212 + l
  | 8 => 243 + l
  | 9 => 273 + l
  | 10 => 304 + l
  | _ => 334 + l
  end.

(** [MakeDay]: the day number of the first of the month, plus [date - 1]. *)
Definition MakeDay (year month date : Z) : Z :=
  let ym := year + month / 12 in
  let mn := month mod 12 in
  DayFromYear ym + DaysBeforeMonth ym mn + date - 1.

Definition MakeTime (hour min sec ms : Z) : Z :=
  hour * msPerHour + min * msPerMinute + sec * msPerSecond + ms.

Definition MakeDate (day time : Z) : Z := day * msPerDay + time.

Definition maxTime : Z := 8640000000000000.

Definition TimeClip (t : Z) : Number :=
  if maxTime <? Z.abs t then NaN else Some t.

(** ** The surroundings: time zone and clock *)

(** [timeZoneOffset] is the value of
    [new Date().getTimezoneOffset() / 60] in [getDateWithTimeString]: the
    hours by which local time is behind UTC (negative east of Greenwich).
    The zone is taken to keep one offset, a whole number of hours, all year
    round.  Not modelled are a zone whose offset is not a whole number of
    hours (there the quotient is a fraction, and the string built from it
    names no time of day) and the change of the offset with summer time
    (under which [setDate] keeps the local time of day, so that a Date moved
    on by [n] days need not be [n] times 24 hours later).  The properties
    that depend on the zone name the offsets they cover, and say of a Date
    moved on by days on which day of the calendar it falls.
    [currentTime] is the time value of [new Date()]. *)
Record Env : Type := mkEnv {
  timeZoneOffset : Z;
  currentTime : Z
}.

Definition LocalTime (env : Env) (t : Z) : Z :=
  t - timeZoneOffset env * msPerHour.

Definition UTC (env : Env) (t : Z) : Z :=
  t + timeZoneOffset env * msPerHour.

(** ** Date objects *)

Inductive Date : Type :=
| Invalid_Date
| Date_at (tv : Z).

Definition Date_of_Number (n : Number) : Date :=
  match n with
  | Some t => match TimeClip t with Some t' => Date_at t' | None => Invalid_Date end
  | None => Invalid_Date
  end.

(** [new Date()] *)
Definition Date_now (env : Env) : Date := Date_at (currentTime env).

Definition getTime (d : Date) : Number :=
  match d with
  | Date_at t => Some t
  | Invalid_Date => NaN
  end.

Definition getFullYear (env : Env) (d : Date) : Number :=
  option_map (fun t => YearFromTime (LocalTime env t)) (getTime d).

Definition getMonth (env : Env) (d : Date) : Number :=
  option_map (fun t => MonthFromTime (LocalTime env t)) (getTime d).

Definition getDate (env : Env) (d : Date) : Number :=
  option_map (fun t => DateFromTime (LocalTime env t)) (getTime d).

(** [d.setDate(date)], as the number it returns: the new time value of [d].
    The only Date the code calls it on is the fresh [baseDate] of one
    callback run, which nothing reads afterwards. *)
Definition setDate (env : Env) (d : Date) (date : Number) : Number :=
  match getTime d, date with
  | Some tv, Some dt =>
      let t := LocalTime env tv in
      let newDate :=
        MakeDate (MakeDay (YearFromTime t) (MonthFromTime t) dt)
                 (TimeWithinDay t) in
      TimeClip (UTC env newDate)
  | _, _ => NaN
  end.

(** *** [Date.parse] on the date-time form

    The strings the code hands to [new Date] are a date followed by
    [T], an hour and [:00:00].  The model reads the form
    [YYYY-MM-DDTHH:mm:ss] of the Date Time String Format, which has no UTC
    offset and is therefore local time, with every field in its range
    (month 01-12, day 01-31, hour 00-24, minute and second 00-59, and 24 only
    as 24:00:00); a day past the end of its month counts on into the next
    month, as [MakeDay] has it.  Any other string gives NaN. *)

Definition digit (c : ascii) : option Z := digitValue 10 c.

Definition twoDigits (a b : ascii) : option Z :=
  match digit a, digit b with
  | Some x, Some y => Some (10 * x + y)
  | _, _ => None
  end.

Definition fourDigits (a b c d : ascii) : option Z :=
  match twoDigits a b, twoDigits c d with
  | Some x, Some y => Some (100 * x + y)
  | _, _ => None
  end.

Definition inRange (lo hi x : Z) : bool := (lo <=? x) && (x <=? hi).

(** The fields of a string of that form: year, month, day, hour, minute,
    second. *)
Definition dateTimeFields (s : string) : option (Z * Z * Z * Z * Z * Z) :=
  match list_ascii_of_string s with
  | [y1; y2; y3; y4; c1; m1; m2; c2; d1; d2; c3;
     h1; h2; c4; n1; n2; c5; s1; s2] =>
      if Ascii.eqb c1 "-" && Ascii.eqb c2 "-" && Ascii.eqb c3 "T"
         && Ascii.eqb c4 ":" && Ascii.eqb c5 ":"
      then
        match fourDigits y1 y2 y3 y4, twoDigits m1 m2, twoDigits d1 d2,
              twoDigits h1 h2, twoDigits n1 n2, twoDigits s1 s2 with
        | Some y, Some m, Some d, Some h, Some mi, Some sec =>
            if inRange 1 12 m && inRange 1 31 d && inRange 0 24 h
               && inRange 0 59 mi && inRange 0 59 sec
               && ((h <? 24) || ((mi =? 0) && (sec =? 0)))
            then Some (y, m, d, h, mi, sec)
            else None
        | _, _, _, _, _, _ => None
        end
      else None
  | _ => None
  end.

Definition Date_parse (env : Env) (s : string) : Number :=
  match dateTimeFields s with
  | Some (y, m, d, h, mi, sec) =>
      TimeClip (UTC env (MakeDate (MakeDay y (m - 1) d) (MakeTime h mi sec 0)))
  | None => NaN
  end.

(** [new Date(s)] for a string [s] *)
Definition Date_of_string (env : Env) (s : string) : Date :=
  match Date_parse env s with
  | Some t => Date_at t
  | None => Invalid_Date
  end.

(** ** The date helpers of [utils.js] *)

Definition dateToStringConverter (env : Env) (date : Date) : string :=
  (String_of_Number (getFullYear env date)
   ++ "-"
   ++ padStart (String_of_Number (num_add (getMonth env date) (Some 1))) 2 "0"
   ++ "-"
   ++ padStart (String_of_Number (getDate env date)) 2 "0")%string.

Definition apodDateToString (date : Date) (cb : Date -> string) : string :=
  cb date.

Definition getDateWithTimeString (env : Env) (date : string) : string :=
  let timeZoneOffset := timeZoneOffset env in
  if 0 <? timeZoneOffset then
    (date ++ "T" ++ padStart (String_of_Z timeZoneOffset) 2 "0"
     ++ ":00:00")%string
  else if timeZoneOffset <? 0 then
    (js_substring date 0 8
     ++ padStart (String_of_Number
                    (num_add (parseInt (js_substring date 8 10)) (Some (-1))))
                 2 "0"
     ++ "T"
     ++ padStart (String_of_Z (24 + timeZoneOffset)) 2 "0"
     ++ ":00:00")%string
  else
    (date ++ "T00:00:00")%string.

Definition apodStringToDate (env : Env) (date : string) : Date :=
  Date_of_string env
    (getDateWithTimeString env
       (if negb (String.eqb date "") then date
        else apodDateToString (Date_now env) (dateToStringConverter env))).

(** ** Arrays *)

(** [l.slice(start)]: a negative [start] counts from the end, and both are
    clamped to the bounds of [l]. *)
Definition slice {A : Type} (l : list A) (start : Z) : list A :=
  let len := Z.of_nat (List.length l) in
  let k := if start <? 0 then Z.max (len + start) 0 else Z.min start len in
  skipn (Z.to_nat k) l.

(** [l[0].p]: reading a property of [undefined] throws. *)
Definition item0 {A : Type} (l : list A) : Completion A :=
  match l with
  | a :: _ => Normal a
  | [] => Throw TypeError
  end.

(** [Array(len).fill().map((x, i) => i)]: [Array] accepts only a length that
    is an integer from 0 to 2^32 - 1. *)
Definition Array_indices (len : Z) : Completion (list Z) :=
  if (0 <=? len) && (len <? 2 ^ 32)
  then Normal (map Z.of_nat (seq 0 (Z.to_nat len)))
  else Throw RangeError.

Definition includes (l : list Z) (x : Z) : bool := existsb (Z.eqb x) l.

(** ** The manifest and the store *)

(** An entry of the manifest, with the two fields the code reads. *)
Record Photo : Type := mkPhoto {
  sol : Z;
  earth_date : string
}.

Module Manifest.
Record photo_manifest : Type := mk {
  name : string;
  landing_date : string;
  launch_date : string;
  status : string;
  total_photos : Z;
  photos : list Photo
}.
End Manifest.

Module Info.
Record selectedRoverInfo : Type := mk {
  name : string;
  minDate : Date;
  maxDate : Date;
  disabledDates : list Date;
  startDate : Date;
  launchDate : string;
  landingDate : string;
  totalPhotos : Z;
  completedDate : Date;
  status : string
}.
End Info.

Module Rovers.
Record requestedPhotos : Type := mkPhotos {
  reqDate : string;
  date : string;
  images : list string
}.

Record rovers : Type := mk {
  selectedRover : string;
  selectedRoverInfo : option Info.selectedRoverInfo;
  photos : requestedPhotos
}.
End Rovers.

(** The application state.  [store.js] is not part of the sources at hand:
    the three branches that [getRoverInfo] only copies are kept abstract, and
    what [selectedRoverInfo] holds before the first manifest arrives is
    [None].  [render] hands the store itself to the listeners as [state], so
    that [state] and [store] are one object. *)
Record State (Menu Apod Epic : Type) : Type := mkState {
  menu : Menu;
  apod : Apod;
  epic : Epic;
  rovers : Rovers.rovers
}.
Arguments mkState {Menu Apod Epic} _ _ _ _.
Arguments menu {Menu Apod Epic} _.
Arguments apod {Menu Apod Epic} _.
Arguments epic {Menu Apod Epic} _.
Arguments rovers {Menu Apod Epic} _.

(** ** [getRoverInfo] *)

Definition cutOff (name : string) : Z :=
  if String.eqb name "Curiosity" then -1
  else if String.eqb name "Spirit" then -17
  else -5.

Definition missingSols (photos : list Photo) : Completion (list Z) :=
  last <- item0 (slice photos (-1)) ;;
  indices <- Array_indices (sol last) ;;
  Normal (filter (fun sol' => negb (includes (map sol photos) sol')) indices).

(** The callback that maps a missing sol to its date. *)
Definition disabledDate (env : Env) (photos : list Photo) (sol : Z)
  : Completion Date :=
  first <- item0 photos ;;
  let baseDate := apodStringToDate env (earth_date first) in
  Normal (Date_of_Number
            (setDate env baseDate
               (num_add (num_add (num_add (getDate env baseDate) (Some sol))
                                 (Some (sol / 37)))
                        (Some (sol / 1493))))).

Definition disabledDates (env : Env) (photos : list Photo)
  : Completion (list Date) :=
  missing <- missingSols photos ;;
  mapM (disabledDate env photos) missing.

(** The object literal assigned to [selectedRoverInfo]. *)
Definition selectedRoverInfo (env : Env) (manifest : Manifest.photo_manifest)
  : Completion Info.selectedRoverInfo :=
  let name := Manifest.name manifest in
  let cutOff := cutOff name in
  let photos := Manifest.photos manifest in
  disabledDates <- disabledDates env photos ;;
  first <- item0 photos ;;
  boundary <- item0 (slice photos cutOff) ;;
  last <- item0 (slice photos (-1)) ;;
  Normal
    {| Info.name := name;
       Info.minDate := apodStringToDate env (earth_date first);
       Info.maxDate := apodStringToDate env (earth_date boundary);
       Info.disabledDates := disabledDates;
       Info.startDate := apodStringToDate env (earth_date boundary);
       Info.launchDate := Manifest.launch_date manifest;
       Info.landingDate := Manifest.landing_date manifest;
       Info.totalPhotos := Manifest.total_photos manifest;
       Info.completedDate := apodStringToDate env (earth_date last);
       Info.status := Manifest.status manifest |}.

(** The body of the callback that [getRoverInfo] registers on the manifest
    request, run on the manifest the request delivers: [Object.assign] on
    [state.rovers], then [updateAndRender] on the store. *)
Definition getRoverInfo {Menu Apod Epic : Type} (env : Env)
    (state : State Menu Apod Epic) (manifest : Manifest.photo_manifest)
  : Completion (State Menu Apod Epic) :=
  info <- selectedRoverInfo env manifest ;;
  boundary <- item0 (slice (Manifest.photos manifest)
                           (cutOff (Manifest.name manifest))) ;;
  let newRover :=
    {| Rovers.selectedRover := Rovers.selectedRover (rovers state);
       Rovers.selectedRoverInfo := Some info;
       Rovers.photos :=
         {| Rovers.reqDate := earth_date boundary;
            Rovers.date := "";
            Rovers.images := [] |} |} in
  Normal
    {| menu := menu state;
       apod := apod state;
       epic := epic state;
       rovers := newRover |}.

(** * The vocabulary of the properties *)

(** ** Comparing and shifting dates *)

(** [a <= b] and [a < b] on Dates compare the time values, and are false as
    soon as one of the two is an Invalid Date. *)
Definition Date_le (a b : Date) : Prop :=
  match a, b with
  | Date_at x, Date_at y => x <= y
  | _, _ => False
  end.

Definition Date_lt (a b : Date) : Prop :=
  match a, b with
  | Date_at x, Date_at y => x < y
  | _, _ => False
  end.

(** [a.getTime() === b.getTime()] *)
Definition Date_eq (a b : Date) : Prop :=
  match a, b with
  | Date_at x, Date_at y => x = y
  | _, _ => False
  end.

(** The date [n] days after [d]: the same time of day [n] days later. *)
Definition addDays (d : Date) (n : Z) : Date :=
  match d with
  | Date_at t => Date_of_Number (Some (t + n * msPerDay))
  | Invalid_Date => Invalid_Date
  end.

(** ** What [getRoverInfo] computes *)

(** The index at which [l.slice(start)] begins. *)
Definition sliceStart {A : Type} (l : list A) (start : Z) : nat :=
  let len := Z.of_nat (List.length l) in
  Z.to_nat (if start <? 0 then Z.max (len + start) 0 else Z.min start len).

(** The days added to the first earth date for sol [sol]. *)
Definition dayOffset (sol : Z) : Z := sol + sol / 37 + sol / 1493.

(** The numbers [Array] accepts as a length. *)
Definition ArrayLength (n : Z) : Prop := 0 <= n < 2 ^ 32.

(** The Date the code makes of an entry's [earth_date]. *)
Definition earthDate (env : Env) (p : Photo) : Date :=
  apodStringToDate env (earth_date p).

Definition lastPhoto (first : Photo) (photos : list Photo) : Photo :=
  nth (List.length photos - 1) photos first.

Definition boundaryPhoto (name : string) (first : Photo)
    (photos : list Photo) : Photo :=
  nth (sliceStart photos (cutOff name)) photos first.

(** The sols below the last recorded one that the manifest does not list. *)
Definition missing (first : Photo) (photos : list Photo) : list Z :=
  filter (fun sol' => negb (includes (map sol photos) sol'))
         (map Z.of_nat (seq 0 (Z.to_nat (sol (lastPhoto first photos))))).

(** The record that [getRoverInfo] stores for a manifest whose first entry is
    [first]. *)
Definition infoOf (env : Env) (m : Manifest.photo_manifest) (first : Photo)
  : Info.selectedRoverInfo :=
  let photos := Manifest.photos m in
  let boundary := boundaryPhoto (Manifest.name m) first photos in
  {| Info.name := Manifest.name m;
     Info.minDate := earthDate env first;
     Info.maxDate := earthDate env boundary;
     Info.disabledDates :=
       map (fun s => addDays (earthDate env first) (dayOffset s))
           (missing first photos);
     Info.startDate := earthDate env boundary;
     Info.launchDate := Manifest.launch_date m;
     Info.landingDate := Manifest.landing_date m;
     Info.totalPhotos := Manifest.total_photos m;
     Info.completedDate := earthDate env (lastPhoto first photos);
     Info.status := Manifest.status m |}.

(** The entries of the manifest have ascending earth dates, as the Dates
    that the code makes of them. *)
Definition ascendingDates (env : Env) (photos : list Photo) : Prop :=
  forall i j p q,
    (i <= j)%nat ->
    nth_error photos i = Some p ->
    nth_error photos j = Some q ->
    Date_le (earthDate env p) (earthDate env q).

(** ** Calendar dates and their strings *)

Definition DaysInMonth (y m : Z) : Z :=
  match m with
  | 2 => if DaysInYear y =? 366 then 29 else 28
  | 4 | 6 | 9 | 11 => 30
  | _ => 31
  end.

(** Day [d] of month [m] (1 to 12) of year [y] is a date of the calendar. *)
Definition validDate (y m d : Z) : Prop :=
  0 <= y <= 9999 /\ 1 <= m <= 12 /\ 1 <= d <= DaysInMonth y m.

Definition digitChar (n : Z) : ascii := ascii_of_nat (Z.to_nat (48 + n)).

Definition pad2 (n : Z) : string :=
  String (digitChar (n / 10)) (String (digitChar (n mod 10)) EmptyString).

Definition pad4 (n : Z) : string :=
  String (digitChar (n / 1000))
    (String (digitChar (n / 100 mod 10)) (pad2 (n mod 100))).

(** The string YYYY-MM-DD of a date. *)
Definition dateString (y m d : Z) : string :=
  (pad4 y ++ "-" ++ pad2 m ++ "-" ++ pad2 d)%string.

Definition range (lo n : Z) : list Z :=
  map (fun i => lo + Z.of_nat i) (seq 0 (Z.to_nat n)).

(** The number of a day of the calendar, counted from 1 January 1970: date
    [(y2, m2, d2)] lies [n] days after [(y1, m1, d1)] when its number is
    [n] more. *)
Definition dayNumber (y m d : Z) : Z := MakeDay y (m - 1) d.

(** The order of the calendar. *)
Definition calendar_le (y1 m1 d1 y2 m2 d2 : Z) : Prop :=
  y1 < y2 \/ (y1 = y2 /\ (m1 < m2 \/ (m1 = m2 /\ d1 <= d2))).

(** The entries carry dates of the calendar, in ascending order. *)
Definition ascendingEarthDates (photos : list Photo) : Prop :=
  forall i j p q,
    (i <= j)%nat ->
    nth_error photos i = Some p ->
    nth_error photos j = Some q ->
    exists y1 m1 d1 y2 m2 d2,
      earth_date p = dateString y1 m1 d1 /\ validDate y1 m1 d1 /\
      earth_date q = dateString y2 m2 d2 /\ validDate y2 m2 d2 /\
      calendar_le y1 m1 d1 y2 m2 d2.

(** ** Sample surroundings and manifests *)

(** A browser five hours behind UTC, and one an hour ahead of it, both at
    2020-11-03T00:00:00Z. *)
Definition behindUTC : Env := mkEnv 5 1604361600000.
Definition aheadOfUTC : Env := mkEnv (-1) 1604361600000.

Definition manifestOf (name : string) (photos : list Photo)
  : Manifest.photo_manifest :=
  Manifest.mk name "2004-01-25" "2003-07-07" "complete"
              (Z.of_nat (List.length photos)) photos.

(** The two-entry manifest of the specification's example. *)
Definition opportunity2 : Manifest.photo_manifest :=
  manifestOf "Opportunity" [mkPhoto 0 "2020-01-01"; mkPhoto 2 "2020-01-03"].

Definition emptyManifest : Manifest.photo_manifest :=
  manifestOf "Opportunity" [].

(** Sols 0 to 6 with sol 2 missing. *)
Definition opportunity6 : Manifest.photo_manifest :=
  manifestOf "Opportunity"
    [mkPhoto 0 "2020-01-01"; mkPhoto 1 "2020-01-02"; mkPhoto 3 "2020-01-04";
     mkPhoto 4 "2020-01-05"; mkPhoto 5 "2020-01-06"; mkPhoto 6 "2020-01-07"].

(** Sols 0 to 5, all recorded. *)
Definition curiosity6 : Manifest.photo_manifest :=
  manifestOf "Curiosity"
    [mkPhoto 0 "2012-08-06"; mkPhoto 1 "2012-08-07"; mkPhoto 2 "2012-08-08";
     mkPhoto 3 "2012-08-09"; mkPhoto 4 "2012-08-10"; mkPhoto 5 "2012-08-11"].

(** Sols 0, 3, 4, 7 and 8: five sols missing. *)
Definition spirit5 : Manifest.photo_manifest :=
  manifestOf "Spirit"
    [mkPhoto 0 "2004-01-05"; mkPhoto 3 "2004-01-08"; mkPhoto 4 "2004-01-09";
     mkPhoto 7 "2004-01-12"; mkPhoto 8 "2004-01-13"].



(** A manifest that begins at sol 1, as Opportunity's does. *)
Definition opportunityFromSol1 : Manifest.photo_manifest :=
  manifestOf "Opportunity"
    [mkPhoto 1 "2004-01-26"; mkPhoto 2 "2004-01-27"; mkPhoto 3 "2004-01-28"].

(** Sol 3 is missing, and sol 2 fell on the third day after sol 0. *)
Definition opportunityGap : Manifest.photo_manifest :=
  manifestOf "Opportunity"
    [mkPhoto 0 "2020-01-01"; mkPhoto 1 "2020-01-02"; mkPhoto 2 "2020-01-04";
     mkPhoto 4 "2020-01-06"].

(** A manifest that begins on the first of a month, with sols 1 and 2
    missing. *)
Definition opportunityNewYear : Manifest.photo_manifest :=
  manifestOf "Opportunity" [mkPhoto 0 "2020-01-01"; mkPhoto 3 "2020-01-04"].

(** Sol 3 is missing; the first entry is dated the second of a month. *)
Definition opportunityLate : Manifest.photo_manifest :=
  manifestOf "Opportunity"
    [mkPhoto 0 "2020-01-02"; mkPhoto 1 "2020-01-03"; mkPhoto 2 "2020-01-04";
     mkPhoto 4 "2020-01-06"].

(** The first entry carries no earth date. *)
Definition undatedManifest : Manifest.photo_manifest :=
  manifestOf "Curiosity" [mkPhoto 0 ""; mkPhoto 1 "2012-08-07"].

Definition emptyRovers : Rovers.rovers :=
  Rovers.mk "Curiosity" None (Rovers.mkPhotos "" "" []).

Definition initialState : State unit unit unit := mkState tt tt tt emptyRovers.

(** * The rest of [utils.js]

    The functions that wait for the backend are modelled by what they do
    once the answer is there: the answer is an argument, and the store they
    leave is the result. *)

(** ** The APOD branch of the store *)

(** An APOD image, with the fields the code names.  [aspectRatio] is a
    floating-point number, set once the picture has loaded; its type is left
    open. *)
Module Apod.
Record image (Ratio : Type) : Type := mkImage {
  date : string;
  title : string;
  explanation : string;
  copyright : string;
  url : string;
  media_type : string;
  aspectRatio : option Ratio
}.
Arguments mkImage {Ratio} _ _ _ _ _ _ _.
Arguments date {Ratio} _.
Arguments title {Ratio} _.
Arguments explanation {Ratio} _.
Arguments copyright {Ratio} _.
Arguments url {Ratio} _.
Arguments media_type {Ratio} _.
Arguments aspectRatio {Ratio} _.

Record apod (Ratio : Type) : Type := mk {
  cachedImgs : list (image Ratio);
  currentImg : option (image Ratio);
  disabledDates : list string;
  checkedUntil : string
}.
Arguments mk {Ratio} _ _ _ _.
Arguments cachedImgs {Ratio} _.
Arguments currentImg {Ratio} _.
Arguments disabledDates {Ratio} _.
Arguments checkedUntil {Ratio} _.
End Apod.

(** [l.includes(x)] on strings *)
Definition includesString (l : list string) (x : string) : bool :=
  existsb (String.eqb x) l.

(** [cacheImage], as the store it leaves: the image is appended to the cache
    and becomes the current image. *)
Definition cacheImage {Menu Ratio Epic : Type} (image : Apod.image Ratio)
    (state : State Menu (Apod.apod Ratio) Epic)
  : State Menu (Apod.apod Ratio) Epic :=
  let newCachedImgs := (Apod.cachedImgs (apod state) ++ [image])%list in
  let newApod :=
    {| Apod.cachedImgs := newCachedImgs;
       Apod.currentImg := Some image;
       Apod.disabledDates := Apod.disabledDates (apod state);
       Apod.checkedUntil := Apod.checkedUntil (apod state) |} in
  {| menu := menu state;
     apod := newApod;
     epic := epic state;
     rovers := rovers state |}.

Definition getApodDisabledDates {Ratio : Type} (env : Env)
    (apod : Apod.apod Ratio) : list Date :=
  map (fun date => apodStringToDate env date) (Apod.disabledDates apod).

(** The handler that [getImageAspectRatio] installs as [img.onload], run
    with the ratio it computes from the natural size of the picture: the
    image is cached unless an image of its date is cached already.  The
    code writes the ratio into the image object itself, before it looks at
    the cache; the model builds the image with the ratio anew, which is the
    same as long as the store does not hold that object (it is the one the
    backend has just delivered).  Were the handler run for an object the
    cache holds, the write would change the ratio of the cached image too,
    which this model does not show: of the handler only what concerns the
    dates of the images is stated, which the write leaves alone. *)
Definition getImageAspectRatio_onload {Menu Ratio Epic : Type}
    (aspectRatio : Ratio) (image : Apod.image Ratio)
    (state : State Menu (Apod.apod Ratio) Epic)
  : State Menu (Apod.apod Ratio) Epic :=
  let newImage :=
    {| Apod.date := Apod.date image;
       Apod.title := Apod.title image;
       Apod.explanation := Apod.explanation image;
       Apod.copyright := Apod.copyright image;
       Apod.url := Apod.url image;
       Apod.media_type := Apod.media_type image;
       Apod.aspectRatio := Some aspectRatio |} in
  if negb (includesString (map Apod.date (Apod.cachedImgs (apod state)))
                          (Apod.date image))
  then cacheImage newImage state
  else state.

(** [getDisabledDates], as the store it leaves once the images of the range
    from [checkedUntil] to today have arrived; when [checkedUntil] is today
    nothing is requested. *)
Definition getDisabledDates {Menu Ratio Epic : Type} (env : Env)
    (state : State Menu (Apod.apod Ratio) Epic)
    (images : list (Apod.image Ratio))
  : State Menu (Apod.apod Ratio) Epic :=
  let apod := apod state in
  let startDate := Apod.checkedUntil apod in
  let endDate := apodDateToString (Date_now env) (dateToStringConverter env) in
  if negb (String.eqb startDate endDate) then
    let newDisabledDates :=
      map Apod.date
          (filter (fun image =>
                     negb (String.eqb (Apod.media_type image) "image"))
                  images) in
    if (0 <? List.length newDisabledDates)%nat then
      let updatedDates := (Apod.disabledDates apod ++ newDisabledDates)%list in
      let newApod :=
        {| Apod.cachedImgs := Apod.cachedImgs apod;
           Apod.currentImg := Apod.currentImg apod;
           Apod.disabledDates := updatedDates;
           Apod.checkedUntil := endDate |} in
      {| menu := menu state;
         apod := newApod;
         epic := epic state;
         rovers := rovers state |}
    else state
  else state.

(** What [getApodImage] does: it returns a value ([None] for [undefined]),
    or it requests the image of a date from the backend and returns
    nothing. *)
Inductive Answer (Ratio : Type) : Type :=
| Returns (v : option (Apod.image Ratio))
| Requests (date : string).
Arguments Returns {Ratio} v.
Arguments Requests {Ratio} date.

Definition getApodImage {Menu Ratio Epic : Type} (date : string)
    (state : State Menu (Apod.apod Ratio) Epic) : Answer Ratio :=
  let cachedImgsDates := map Apod.date (Apod.cachedImgs (apod state)) in
  let isCurrent :=
    match Apod.currentImg (apod state) with
    | Some currentImg => String.eqb (Apod.date currentImg) date
    | None => false
    end in
  if isCurrent then Returns (Apod.currentImg (apod state))
  else if includesString cachedImgsDates date then
    Returns (hd_error (filter (fun image => String.eqb (Apod.date image) date)
                              (Apod.cachedImgs (apod state))))
  else Requests date.

(** ** The EPIC branch of the store *)

(** An image as the EPIC backend lists it. *)
Module EpicApi.
Record image : Type := mk {
  date : string;
  image_ : string
}.
End EpicApi.

Module EpicImage.
Record latestImage : Type := mk {
  date : string;
  url : string
}.
End EpicImage.

Module Epic.
Record epic : Type := mk {
  date : string;
  images : list EpicImage.latestImage
}.
End Epic.

(** The callback of [getEpicImages], run on the images the backend lists. *)
Definition getEpicImages {Menu Apod : Type}
    (state : State Menu Apod Epic.epic) (images : list EpicApi.image)
  : Completion (State Menu Apod Epic.epic) :=
  first <- item0 images ;;
  let year := js_substring (EpicApi.date first) 0 4 in
  let month := js_substring (EpicApi.date first) 5 7 in
  let day := js_substring (EpicApi.date first) 8 10 in
  let date := (year ++ "-" ++ month ++ "-" ++ day)%string in
  let latestImages :=
    map (fun image =>
           {| EpicImage.date := EpicApi.date image;
              EpicImage.url :=
                ("https://epic.gsfc.nasa.gov/archive/natural/"
                 ++ year ++ "/" ++ month ++ "/" ++ day ++ "/png/"
                 ++ EpicApi.image_ image ++ ".png")%string |})
        images in
  let newEpic := {| Epic.date := date; Epic.images := latestImages |} in
  Normal
    {| menu := menu state;
       apod := apod state;
       epic := newEpic;
       rovers := rovers state |}.

(** ** The photos of a rover *)

Module RoverImage.
Record camera : Type := mkCamera {
  name : string
}.

Record photo : Type := mk {
  camera_ : camera;
  img_src : string
}.
End RoverImage.

Definition cameras : list string := ["FHAZ"; "NAVCAM"; "PANCAM"; "RHAZ"].

(** The callback of [getRoverPhotos], run on the photos the backend lists.
    [shuffle] is what [sort] with the comparator [() => 0.5 - Math.random()]
    does to the copy of the images on this run: it leaves them in some
    order. *)
Definition getRoverPhotos {Menu Apod Epic : Type}
    (shuffle : list string -> list string)
    (state : State Menu Apod Epic) (photos : list RoverImage.photo)
  : State Menu Apod Epic :=
  let images :=
    map RoverImage.img_src
        (filter (fun photo =>
                   includesString cameras
                     (RoverImage.name (RoverImage.camera_ photo)))
                photos) in
  let newRover :=
    {| Rovers.selectedRover := Rovers.selectedRover (rovers state);
       Rovers.selectedRoverInfo := Rovers.selectedRoverInfo (rovers state);
       Rovers.photos :=
         {| Rovers.reqDate := Rovers.reqDate (Rovers.photos (rovers state));
            Rovers.date := Rovers.reqDate (Rovers.photos (rovers state));
            Rovers.images := firstn 25 (shuffle images) |} |} in
  {| menu := menu state;
     apod := apod state;
     epic := epic state;
     rovers := newRover |}.

(** ** Vocabulary for the rest *)

(** Strictly earlier in the calendar. *)
Definition calendar_lt (y1 m1 d1 y2 m2 d2 : Z) : Prop :=
  y1 < y2 \/ (y1 = y2 /\ (m1 < m2 \/ (m1 = m2 /\ d1 < d2))).

(** ** Samples for the rest *)

(** The last entry carries a negative sol. *)
Definition negativeSolManifest : Manifest.photo_manifest :=
  manifestOf "Curiosity" [mkPhoto 0 "2012-08-06"; mkPhoto (-1) "2012-08-07"].

Definition apodImage (date media_type : string) : Apod.image Z :=
  Apod.mkImage date "A picture" "What it shows" "Its author"
               ("https://apod.nasa.gov/apod/" ++ date) media_type None.

(** A store with one cached picture, that of 2020-11-01, checked until that
    day. *)
Definition apodState : State unit (Apod.apod Z) unit :=
  mkState tt
    (Apod.mk [apodImage "2020-11-01" "image"]
             (Some (apodImage "2020-11-01" "image"))
             ["2020-10-30"] "2020-11-01")
    tt emptyRovers.

(** What the backend lists from 2020-11-01 to 2020-11-03: a picture, a
    video, a picture. *)
Definition apodRange : list (Apod.image Z) :=
  [apodImage "2020-11-01" "image"; apodImage "2020-11-02" "video";
   apodImage "2020-11-03" "image"].

(** What the EPIC backend lists for 2020-11-02. *)
Definition epicList : list EpicApi.image :=
  [EpicApi.mk "2020-11-02 00:31:45" "epic_1b_20201102003633";
   EpicApi.mk "2020-11-02 02:19:48" "epic_1b_20201102022436"].

Definition epicState : State unit unit Epic.epic :=
  mkState tt tt (Epic.mk "" []) emptyRovers.

(** What the backend lists for a rover and a day: four photos, one of them
    from a camera that is not shown. *)
Definition roverList : list RoverImage.photo :=
  [RoverImage.mk (RoverImage.mkCamera "FHAZ") "https://mars.nasa.gov/1.jpg";
   RoverImage.mk (RoverImage.mkCamera "MAST") "https://mars.nasa.gov/2.jpg";
   RoverImage.mk (RoverImage.mkCamera "NAVCAM") "https://mars.nasa.gov/3.jpg";
   RoverImage.mk (RoverImage.mkCamera "RHAZ") "https://mars.nasa.gov/4.jpg"].

(** A store in which the photos of 2020-01-02 are requested. *)
Definition requestingState : State unit unit unit :=
  mkState tt tt tt
    (Rovers.mk "Opportunity" None (Rovers.mkPhotos "2020-01-02" "" [])).

(** The source of an image of one of the cameras that are shown. *)
Definition shownSources (photos : list RoverImage.photo) : list string :=
  map RoverImage.img_src
      (filter (fun photo =>
                 includesString cameras
                   (RoverImage.name (RoverImage.camera_ photo)))
              photos).

(** The address of an EPIC image of a day. *)
Definition epicUrl (y m d : Z) (name : string) : string :=
  ("https://epic.gsfc.nasa.gov/archive/natural/"
   ++ pad4 y ++ "/" ++ pad2 m ++ "/" ++ pad2 d ++ "/png/"
   ++ name ++ ".png")%string.

(** * Properties *)

(** Quotients and remainders by constants are linear arithmetic. *)
Ltac Zify.zify_post_hook ::= Z.div_mod_to_equations.

Ltac month_cases m :=
  let H := fresh in
  assert (H : m = 1 \/ m = 2 \/ m = 3 \/ m = 4 \/ m = 5 \/ m = 6 \/ m = 7
              \/ m = 8 \/ m = 9 \/ m = 10 \/ m = 11 \/ m = 12) by lia;
  repeat (destruct H as [-> | H]); [ .. | subst m].

(** Evaluates the month tables at a numeral, leaving sums alone. *)
Ltac month_tables :=
  repeat match goal with
         | |- context [Z.pos ?p - 1] =>
             let v := eval compute in (Z.pos p - 1) in
             change (Z.pos p - 1) with v
         end;
  change (365 =? 366) with false; change (366 =? 366) with true;
  cbv beta iota.

(** ** The calendar *)

Lemma DayFromYear_succ (y : Z) :
  DayFromYear (y + 1) = DayFromYear y + DaysInYear y.
Proof.
  unfold DayFromYear, DaysInYear.
  destruct (Z.eqb_spec (y mod 4) 0), (Z.eqb_spec (y mod 100) 0),
    (Z.eqb_spec (y mod 400) 0); cbn [negb]; lia.
Qed.

Lemma DaysInYear_cases (y : Z) : DaysInYear y = 365 \/ DaysInYear y = 366.
Proof.
  unfold DaysInYear.
  destruct (y mod 4 =? 0), (y mod 100 =? 0), (y mod 400 =? 0); simpl; auto.
Qed.

Lemma YearFromDay_spec (d : Z) :
  DayFromYear (YearFromDay d) <= d < DayFromYear (YearFromDay d + 1).
Proof.
  unfold YearFromDay.
  set (y := 1970 + 400 * d / 146097).
  assert (Hy : 146097 * (y - 1970) <= 400 * d < 146097 * (y - 1970) + 146097)
    by (unfold y; lia).
  clearbody y.
  destruct (Z.ltb_spec d (DayFromYear y)) as [Hlt | Hge].
  - replace (y - 1 + 1) with y by lia. split; [ | exact Hlt].
    unfold DayFromYear in *. lia.
  - destruct (Z.leb_spec (DayFromYear (y + 1)) d) as [Hle | Hgt].
    + split; [exact Hle | ]. unfold DayFromYear in *. lia.
    + split; assumption.
Qed.

(** [YearFromTime t] is the largest [y] with [TimeFromYear y <= t]. *)
Lemma YearFromTime_spec (t : Z) :
  TimeFromYear (YearFromTime t) <= t < TimeFromYear (YearFromTime t + 1).
Proof.
  unfold TimeFromYear, YearFromTime.
  pose proof (YearFromDay_spec (Day t)) as H. revert H.
  generalize (DayFromYear (YearFromDay (Day t)))
             (DayFromYear (YearFromDay (Day t) + 1)).
  intros a b H. unfold Day, msPerDay in *. lia.
Qed.

Lemma DayWithinYear_range (t : Z) :
  0 <= DayWithinYear t < DaysInYear (YearFromTime t).
Proof.
  unfold DayWithinYear, YearFromTime.
  pose proof (YearFromDay_spec (Day t)) as H.
  rewrite DayFromYear_succ in H. lia.
Qed.

Lemma MonthFromTime_range (t : Z) : 0 <= MonthFromTime t <= 11.
Proof.
  unfold MonthFromTime.
  repeat match goal with
         | |- context [if ?b then _ else _] => destruct b
         end; lia.
Qed.

(** The day of the month counts on from the days before the month. *)
Lemma DateFromTime_DaysBeforeMonth (t : Z) :
  DateFromTime t =
  DayWithinYear t - DaysBeforeMonth (YearFromTime t) (MonthFromTime t) + 1.
Proof.
  unfold DateFromTime, DaysBeforeMonth, InLeapYear.
  pose proof (MonthFromTime_range t) as Hm.
  destruct (MonthFromTime t) as [ | p | p]; [lia | | lia].
  do 4 (try destruct p as [p | p | ]); lia.
Qed.

Lemma Day_TimeWithinDay (t : Z) : MakeDate (Day t) (TimeWithinDay t) = t.
Proof. unfold MakeDate, Day, TimeWithinDay, msPerDay. lia. Qed.

(** Setting the day of the month to the current one plus [n] moves the time
    value by [n] whole days. *)
Lemma MakeDay_shift (t n : Z) :
  MakeDate (MakeDay (YearFromTime t) (MonthFromTime t) (DateFromTime t + n))
           (TimeWithinDay t)
  = t + n * msPerDay.
Proof.
  unfold MakeDay.
  pose proof (MonthFromTime_range t) as Hm.
  replace (MonthFromTime t / 12) with 0 by lia.
  replace (MonthFromTime t mod 12) with (MonthFromTime t) by lia.
  rewrite DateFromTime_DaysBeforeMonth, Z.add_0_r.
  unfold DayWithinYear.
  generalize (DayFromYear (YearFromTime t))
             (DaysBeforeMonth (YearFromTime t) (MonthFromTime t)).
  intros a b. unfold MakeDate, TimeWithinDay, Day, msPerDay. lia.
Qed.

Lemma setDate_getDate (env : Env) (tv n : Z) :
  setDate env (Date_at tv) (num_add (getDate env (Date_at tv)) (Some n))
  = TimeClip (tv + n * msPerDay).
Proof.
  unfold setDate, getDate. cbn [getTime option_map num_add].
  rewrite MakeDay_shift. unfold UTC, LocalTime. f_equal. ring.
Qed.

Lemma Date_of_Number_TimeClip (t : Z) :
  Date_of_Number (TimeClip t) = Date_of_Number (Some t).
Proof.
  unfold Date_of_Number, TimeClip.
  destruct (maxTime <? Z.abs t) eqn:E; [reflexivity | ].
  rewrite E. reflexivity.
Qed.

Lemma DayFromYear_lt (y1 y2 : Z) :
  y1 < y2 -> DayFromYear y1 < DayFromYear y2.
Proof. unfold DayFromYear. lia. Qed.

(** The year of a day is the only one whose days include it. *)
Lemma YearFromDay_unique (y d : Z) :
  DayFromYear y <= d < DayFromYear (y + 1) -> YearFromDay d = y.
Proof.
  intros H. pose proof (YearFromDay_spec d) as Hs.
  destruct (Z.lt_trichotomy (YearFromDay d) y) as [Hlt | [Heq | Hgt]];
    [ | exact Heq | ].
  - assert (DayFromYear (YearFromDay d + 1) <= DayFromYear y).
    { destruct (Z.eq_dec (YearFromDay d + 1) y) as [-> | ]; [lia | ].
      apply Z.lt_le_incl, DayFromYear_lt. lia. }
    lia.
  - assert (DayFromYear (y + 1) <= DayFromYear (YearFromDay d)).
    { destruct (Z.eq_dec (y + 1) (YearFromDay d)) as [-> | ]; [lia | ].
      apply Z.lt_le_incl, DayFromYear_lt. lia. }
    lia.
Qed.

Lemma dayOfYear_range (y m d : Z) :
  validDate y m d ->
  0 <= DaysBeforeMonth y (m - 1) + d - 1 < DaysInYear y.
Proof.
  intros (_ & Hm & Hd). revert Hd.
  unfold DaysInMonth, DaysBeforeMonth.
  destruct (DaysInYear_cases y) as [-> | ->];
    month_cases m; month_tables; lia.
Qed.

(** The time value of a calendar date at a whole hour of the day, and the
    fields read back from it. *)
Lemma fields_of_MakeDay (y m d h : Z) :
  validDate y m d -> 0 <= h <= 23 ->
  let t := MakeDate (MakeDay y (m - 1) d) (MakeTime h 0 0 0) in
  YearFromTime t = y /\ MonthFromTime t = m - 1 /\ DateFromTime t = d.
Proof.
  intros Hv Hh t.
  pose proof (dayOfYear_range y m d Hv) as Hr.
  destruct Hv as (Hy & Hm & Hd).
  assert (HD : Day t = DayFromYear y + (DaysBeforeMonth y (m - 1) + d - 1)).
  { unfold t, MakeDate, MakeDay, MakeTime, Day, msPerDay, msPerHour,
      msPerMinute, msPerSecond.
    replace ((m - 1) / 12) with 0 by lia.
    replace ((m - 1) mod 12) with (m - 1) by lia.
    rewrite Z.add_0_r.
    generalize (DayFromYear y) (DaysBeforeMonth y (m - 1)). intros a b. lia. }
  assert (HY : YearFromTime t = y).
  { unfold YearFromTime. apply YearFromDay_unique.
    rewrite DayFromYear_succ, HD. lia. }
  split; [exact HY | ].
  assert (HW : DayWithinYear t = DaysBeforeMonth y (m - 1) + d - 1).
  { unfold DayWithinYear. rewrite HY, HD. lia. }
  assert (HM : MonthFromTime t = m - 1).
  { unfold MonthFromTime, InLeapYear. rewrite HW, HY.
    revert Hd. unfold DaysInMonth, DaysBeforeMonth.
    destruct (DaysInYear_cases y) as [-> | ->];
      month_cases m; month_tables; intros Hd;
      repeat match goal with
             | |- context [?a <? ?b] => destruct (Z.ltb_spec a b); try lia
             end. }
  split; [exact HM | ].
  rewrite DateFromTime_DaysBeforeMonth, HW, HY, HM. lia.
Qed.

(** ** Arrays and completions *)

Lemma mapM_Normal {A B : Type} (f : A -> Completion B) (g : A -> B)
    (l : list A) :
  (forall a, In a l -> f a = Normal (g a)) -> mapM f l = Normal (map g l).
Proof.
  induction l as [ | a l IH]; intros H; [reflexivity | ].
  cbn [mapM map]. rewrite (H a (or_introl eq_refl)). cbn [bind].
  rewrite IH by (intros; apply H; right; assumption). reflexivity.
Qed.

Lemma item0_skipn {A : Type} (l : list A) (k : nat) :
  item0 (skipn k l) =
  match nth_error l k with
  | Some a => Normal a
  | None => Throw TypeError
  end.
Proof.
  revert l; induction k as [ | k IH]; intros [ | a l]; cbn; auto.
Qed.

Lemma item0_slice {A : Type} (l : list A) (start : Z) :
  item0 (slice l start) =
  match nth_error l (sliceStart l start) with
  | Some a => Normal a
  | None => Throw TypeError
  end.
Proof. unfold slice, sliceStart. apply item0_skipn. Qed.

Lemma sliceStart_negative {A : Type} (l : list A) (c : Z) :
  c < 0 ->
  sliceStart l c = (List.length l - Z.to_nat (- c))%nat.
Proof.
  intros Hc. unfold sliceStart.
  destruct (Z.ltb_spec c 0); lia.
Qed.

Lemma includes_In (l : list Z) (x : Z) : includes l x = true <-> In x l.
Proof.
  unfold includes. rewrite existsb_exists. split.
  - intros [y [Hin Heq]]. apply Z.eqb_eq in Heq. subst. exact Hin.
  - intros Hin. exists x. split; [exact Hin | apply Z.eqb_refl].
Qed.

Lemma In_indices (n : nat) (x : Z) :
  In x (map Z.of_nat (seq 0 n)) <-> 0 <= x < Z.of_nat n.
Proof.
  rewrite in_map_iff. split.
  - intros [k [<- Hk]]. apply in_seq in Hk. lia.
  - intros Hx. exists (Z.to_nat x). split; [lia | ]. apply in_seq. lia.
Qed.

Lemma nth_error_nth_lt {A : Type} (l : list A) (k : nat) (d : A) :
  (k < List.length l)%nat -> nth_error l k = Some (nth k l d).
Proof. intros H. apply nth_error_nth'. exact H. Qed.

Lemma sliceStart_lt {A : Type} (l : list A) (c : Z) :
  l <> [] -> c < 0 -> (sliceStart l c < List.length l)%nat.
Proof.
  intros Hl Hc. unfold sliceStart.
  destruct l as [ | a l]; [congruence | ]. cbn [List.length].
  destruct (Z.ltb_spec c 0); lia.
Qed.

Lemma filter_none {A : Type} (f : A -> bool) (l : list A) :
  (forall x, In x l -> f x = false) -> filter f l = [].
Proof.
  induction l as [ | a l IH]; intros H; [reflexivity | ].
  cbn [filter]. rewrite (H a (or_introl eq_refl)).
  apply IH. intros x Hx. apply H. right. exact Hx.
Qed.

Lemma filter_indices_single (f : Z -> bool) (n : nat) (k : Z) :
  0 <= k < Z.of_nat n ->
  f k = true ->
  (forall s, 0 <= s < Z.of_nat n -> s <> k -> f s = false) ->
  filter f (map Z.of_nat (seq 0 n)) = [k].
Proof.
  intros Hk Hf Hother.
  replace n with (Z.to_nat k + (1 + (n - Z.to_nat k - 1)))%nat at 1 by lia.
  rewrite !seq_app, !map_app, !filter_app. cbn [seq map filter].
  rewrite Nat.add_0_l, Z2Nat.id by lia. rewrite Hf.
  rewrite !filter_none; [reflexivity | | ].
  - intros s Hs. apply in_map_iff in Hs as [i [<- Hi]]. apply in_seq in Hi.
    apply Hother; lia.
  - intros s Hs. apply in_map_iff in Hs as [i [<- Hi]]. apply in_seq in Hi.
    apply Hother; lia.
Qed.

Lemma mapM_ext {A B : Type} (f g : A -> Completion B) (l : list A) :
  (forall a, f a = g a) -> mapM f l = mapM g l.
Proof.
  intros H. induction l as [ | a l IH]; [reflexivity | ].
  cbn [mapM]. rewrite H, IH. reflexivity.
Qed.

Lemma item0_In {A : Type} (l : list A) (a : A) :
  item0 l = Normal a -> In a l.
Proof. destruct l; [discriminate | intros [= ->]; left; reflexivity]. Qed.

Lemma item0_slice_In {A : Type} (l : list A) (start : Z) (a : A) :
  item0 (slice l start) = Normal a -> In a l.
Proof.
  rewrite item0_slice.
  destruct (nth_error l (sliceStart l start)) as [b | ] eqn:E;
    [ | discriminate].
  intros [= ->]. exact (nth_error_In _ _ E).
Qed.

(** ** What [getRoverInfo] computes *)

Lemma disabledDate_addDays (env : Env) (first : Photo) (rest : list Photo)
    (s : Z) :
  disabledDate env (first :: rest) s
  = Normal (addDays (earthDate env first) (dayOffset s)).
Proof.
  unfold disabledDate, earthDate, dayOffset. cbn [item0 bind]. f_equal.
  destruct (apodStringToDate env (earth_date first)) as [ | tv].
  - reflexivity.
  - replace (num_add (num_add (num_add (getDate env (Date_at tv)) (Some s))
                              (Some (s / 37))) (Some (s / 1493)))
      with (num_add (getDate env (Date_at tv)) (Some (s + s / 37 + s / 1493))).
    + rewrite setDate_getDate, Date_of_Number_TimeClip. reflexivity.
    + cbn. f_equal. ring.
Qed.

Lemma cutOff_negative (name : string) : cutOff name < 0.
Proof.
  unfold cutOff.
  destruct (String.eqb name "Curiosity"), (String.eqb name "Spirit"); lia.
Qed.

Lemma missingSols_Normal (first : Photo) (rest : list Photo) :
  ArrayLength (sol (lastPhoto first (first :: rest))) ->
  missingSols (first :: rest) = Normal (missing first (first :: rest)).
Proof.
  unfold ArrayLength. intros Hl. unfold missingSols, missing, lastPhoto in *.
  rewrite item0_slice.
  rewrite (sliceStart_negative (first :: rest) (-1)) by lia.
  change (Z.to_nat (- -1)) with 1%nat.
  rewrite (nth_error_nth_lt _ _ first) by (cbn [List.length]; lia).
  cbn [bind]. set (last := nth _ _ first) in *.
  unfold Array_indices.
  destruct (Z.leb_spec 0 (sol last)); [ | lia].
  destruct (Z.ltb_spec (sol last) (2 ^ 32)); [ | lia].
  reflexivity.
Qed.

(** On a non-empty manifest whose last sol can be the length of an array the
    computation completes normally, with that record. *)
Lemma selectedRoverInfo_Normal (env : Env) (m : Manifest.photo_manifest)
    (first : Photo) (rest : list Photo) :
  Manifest.photos m = first :: rest ->
  ArrayLength (sol (lastPhoto first (Manifest.photos m))) ->
  selectedRoverInfo env m = Normal (infoOf env m first).
Proof.
  intros Hp Hr. unfold selectedRoverInfo, disabledDates, infoOf, boundaryPhoto.
  rewrite Hp in *.
  rewrite (missingSols_Normal first rest Hr). cbn [bind].
  rewrite (mapM_Normal _ (fun s => addDays (earthDate env first) (dayOffset s)))
    by (intros; apply disabledDate_addDays).
  cbn [bind item0].
  rewrite !item0_slice.
  rewrite (nth_error_nth_lt _ _ first)
    by (apply sliceStart_lt; [discriminate | apply cutOff_negative]).
  rewrite (sliceStart_negative (first :: rest) (-1)) by lia.
  change (Z.to_nat (- -1)) with 1%nat.
  rewrite (nth_error_nth_lt _ (_ - 1) first) by (cbn [List.length]; lia).
  reflexivity.
Qed.


Lemma missing_spec (first : Photo) (photos : list Photo) (s : Z) :
  In s (missing first photos) <->
  0 <= s < sol (lastPhoto first photos) /\ ~ In s (map sol photos).
Proof.
  unfold missing. rewrite filter_In, In_indices, negb_true_iff.
  rewrite <- includes_In.
  destruct (includes (map sol photos) s); split; intros [H1 H2];
    (split; [lia | congruence]).
Qed.

Lemma dayOffset_increasing (s1 s2 : Z) :
  s1 < s2 -> dayOffset s1 < dayOffset s2.
Proof. unfold dayOffset. lia. Qed.

Lemma dayOffset_nonneg (s : Z) : 0 <= s -> 0 <= dayOffset s.
Proof. unfold dayOffset. lia. Qed.

Lemma TimeClip_Some (t t' : Z) :
  TimeClip t = Some t' -> t' = t /\ Z.abs t <= maxTime.
Proof.
  unfold TimeClip. destruct (Z.ltb_spec maxTime (Z.abs t)); [discriminate | ].
  intros [= <-]. split; [reflexivity | assumption].
Qed.

Lemma TimeClip_in_range (t : Z) : Z.abs t <= maxTime -> TimeClip t = Some t.
Proof.
  intros H. unfold TimeClip.
  destruct (Z.ltb_spec maxTime (Z.abs t)); [lia | reflexivity].
Qed.

(** The Dates that [apodStringToDate] returns hold clipped time values. *)
Lemma apodStringToDate_range (env : Env) (s : string) (t : Z) :
  apodStringToDate env s = Date_at t -> Z.abs t <= maxTime.
Proof.
  unfold apodStringToDate, Date_of_string, Date_parse.
  destruct (dateTimeFields _) as [[[[[[y mo] d] h] mi] sec] | ];
    [ | discriminate].
  destruct (TimeClip _) as [t' | ] eqn:E; [ | discriminate].
  intros [= ->]. apply TimeClip_Some in E as [-> E]. exact E.
Qed.

Lemma addDays_valid (d : Date) (n t' : Z) :
  addDays d n = Date_at t' ->
  exists t, d = Date_at t /\ t' = t + n * msPerDay /\ Z.abs t' <= maxTime.
Proof.
  destruct d as [ | t]; cbn [addDays Date_of_Number]; [discriminate | ].
  destruct (TimeClip _) as [u | ] eqn:E; [ | discriminate].
  intros [= ->]. apply TimeClip_Some in E as [-> E].
  exists t. auto.
Qed.

Lemma addDays_in_range (t n : Z) :
  Z.abs (t + n * msPerDay) <= maxTime ->
  addDays (Date_at t) n = Date_at (t + n * msPerDay).
Proof.
  intros H. cbn [addDays Date_of_Number].
  rewrite (TimeClip_in_range _ H). reflexivity.
Qed.


(** The entry where the slice by [cutOff] begins. *)
Lemma boundaryPhoto_nth_error (name : string) (first : Photo)
    (rest : list Photo) :
  nth_error (first :: rest)
            (List.length (first :: rest) - Z.to_nat (- cutOff name))
  = Some (boundaryPhoto name first (first :: rest)).
Proof.
  unfold boundaryPhoto.
  pose proof (cutOff_negative name) as Hneg.
  rewrite sliceStart_negative by exact Hneg.
  apply nth_error_nth_lt. cbn [List.length]. lia.
Qed.

(** ** The disabled dates: C6 and C4 *)

(** C6. The missing sols are the integers from 0 to the last recorded sol,
    inclusive, that are not among the recorded sols; and when the manifest
    records every sol of that range, [disabledDates] is empty. *)
Theorem C6_no_missing_sol (env : Env) (m : Manifest.photo_manifest)
    (first : Photo) (rest : list Photo) :
  Manifest.photos m = first :: rest ->
  ArrayLength (sol (lastPhoto first (Manifest.photos m))) ->
  exists info missingSols',
    selectedRoverInfo env m = Normal info /\
    missingSols (Manifest.photos m) = Normal missingSols' /\
    (forall s,
       In s missingSols' <->
       0 <= s <= sol (lastPhoto first (Manifest.photos m)) /\
       ~ In s (map sol (Manifest.photos m))) /\
    ((forall s, 0 <= s <= sol (lastPhoto first (Manifest.photos m)) ->
                In s (map sol (Manifest.photos m))) ->
     Info.disabledDates info = []).
Proof.
  intros Hp Hlen.
  exists (infoOf env m first), (missing first (Manifest.photos m)).
  split; [apply (selectedRoverInfo_Normal env m first rest Hp Hlen) | ].
  split; [rewrite Hp in *; apply missingSols_Normal; exact Hlen | ].
  split.
  - intros s. rewrite missing_spec.
    assert (Hlast : In (sol (lastPhoto first (Manifest.photos m)))
                       (map sol (Manifest.photos m))).
    { apply in_map. unfold lastPhoto. apply nth_In.
      rewrite Hp. cbn [List.length]. lia. }
    split; intros [Hs Hnot]; (split; [ | exact Hnot]); [lia | ].
    assert (s <> sol (lastPhoto first (Manifest.photos m)))
      by (intros ->; contradiction).
    lia.
  - intros Hall. unfold infoOf. cbn [Info.disabledDates].
    replace (missing first (Manifest.photos m)) with (@nil Z); [reflexivity | ].
    symmetry. unfold missing. apply filter_none.
    intros s Hs. apply In_indices in Hs.
    apply negb_false_iff, includes_In, Hall. lia.
Qed.

(** C4, as the specification has it, fails twice.  On a manifest that begins
    at sol 1, sol 0 is missing and its date is [minDate] itself; and on a
    manifest that records sol 0, the date of missing sol 3 is the earth date
    of recorded sol 2. *)
Lemma C4_minDate_disabled :
  (exists info d,
     selectedRoverInfo behindUTC opportunityFromSol1 = Normal info /\
     In d (Info.disabledDates info) /\
     Date_eq d (Info.minDate info)) /\
  (exists info d p,
     selectedRoverInfo behindUTC opportunityGap = Normal info /\
     In d (Info.disabledDates info) /\
     In p (Manifest.photos opportunityGap) /\
     Date_eq d (apodStringToDate behindUTC (earth_date p))).
Proof.
  split.
  - eexists. exists (Date_at 1075111200000).
    split; [vm_compute; reflexivity | ].
    split; [left; reflexivity | reflexivity].
  - eexists. exists (Date_at 1578132000000), (mkPhoto 2 "2020-01-04").
    split; [vm_compute; reflexivity | ].
    split; [left; reflexivity | ].
    split; [right; right; left; reflexivity | vm_compute; reflexivity].
Qed.

(** C4, amended.  [disabledDates] holds [minDate] exactly when the manifest
    does not record sol 0: when it records sol 0 no disabled date is
    [minDate], and when it does not, a valid [minDate] is among the disabled
    dates. *)
Theorem C4_minDate_not_disabled (env : Env) (m : Manifest.photo_manifest)
    (first : Photo) (rest : list Photo) :
  Manifest.photos m = first :: rest ->
  ArrayLength (sol (lastPhoto first (Manifest.photos m))) ->
  exists info,
    selectedRoverInfo env m = Normal info /\
    (In 0 (map sol (Manifest.photos m)) ->
     forall d, In d (Info.disabledDates info) ->
               ~ Date_eq d (Info.minDate info)) /\
    (~ In 0 (map sol (Manifest.photos m)) ->
     Info.minDate info <> Invalid_Date ->
     In (Info.minDate info) (Info.disabledDates info)).
Proof.
  intros Hp Hlen.
  exists (infoOf env m first).
  split; [apply (selectedRoverInfo_Normal env m first rest Hp Hlen) | ].
  unfold infoOf. cbn [Info.disabledDates Info.minDate].
  split.
  - intros H0 d Hd. apply in_map_iff in Hd as [s [<- Hs]].
    apply missing_spec in Hs as [Hs Hnot].
    assert (Hpos : 1 <= dayOffset s).
    { assert (s <> 0) by (intros ->; contradiction).
      unfold dayOffset. lia. }
    destruct (earthDate env first) as [ | t]; [exact (fun H => H) | ].
    cbn [addDays Date_of_Number].
    destruct (TimeClip _) as [t' | ] eqn:E; [ | exact (fun H => H)].
    apply TimeClip_Some in E as [-> _]. cbn [Date_eq]. unfold msPerDay. lia.
  - intros H0 Hvalid. apply in_map_iff. exists 0. split.
    + destruct (earthDate env first) as [ | t] eqn:E; [congruence | ].
      pose proof (apodStringToDate_range env _ t E) as Hr.
      change (dayOffset 0) with 0.
      rewrite addDays_in_range by (rewrite Z.mul_0_l, Z.add_0_r; exact Hr).
      f_equal. ring.
    + apply missing_spec. split; [ | exact H0].
      assert (Hlast : In (sol (lastPhoto first (Manifest.photos m)))
                         (map sol (Manifest.photos m))).
      { apply in_map. unfold lastPhoto. apply nth_In.
        rewrite Hp. cbn [List.length]. lia. }
      assert (sol (lastPhoto first (Manifest.photos m)) <> 0)
        by (intros E; rewrite E in Hlast; contradiction).
      unfold ArrayLength in Hlen. lia.
Qed.

(** ** The date range and failure: C3, C10 and C2 *)


(** When the Dates made of the earth dates are valid and ascending, the
    dates of the range are in order: they are the Dates of the entries at
    index 0, at the boundary and at the end. *)
Lemma date_range_of_ascendingDates (env : Env) (m : Manifest.photo_manifest)
    (first : Photo) (rest : list Photo) :
  Manifest.photos m = first :: rest ->
  ArrayLength (sol (lastPhoto first (Manifest.photos m))) ->
  ascendingDates env (Manifest.photos m) ->
  exists info,
    selectedRoverInfo env m = Normal info /\
    Date_le (Info.minDate info) (Info.startDate info) /\
    Date_le (Info.startDate info) (Info.maxDate info) /\
    Date_le (Info.maxDate info) (Info.completedDate info) /\
    Info.startDate info = Info.maxDate info.
Proof.
  intros Hp Hlen Hasc.
  exists (infoOf env m first).
  split; [apply (selectedRoverInfo_Normal env m first rest Hp Hlen) | ].
  unfold infoOf. cbn [Info.minDate Info.startDate Info.maxDate
                      Info.completedDate].
  rewrite Hp in *.
  pose proof (boundaryPhoto_nth_error (Manifest.name m) first rest) as Hb.
  assert (Hf : nth_error (first :: rest) 0 = Some first) by reflexivity.
  assert (Hl : nth_error (first :: rest) (List.length (first :: rest) - 1)
               = Some (lastPhoto first (first :: rest))).
  { apply nth_error_nth_lt. cbn [List.length]. lia. }
  repeat split.
  - eapply Hasc; [ | exact Hf | exact Hb]. lia.
  - eapply Hasc; [ | exact Hb | exact Hb]. lia.
  - eapply Hasc; [ | exact Hb | exact Hl].
    pose proof (cutOff_negative (Manifest.name m)). lia.
Qed.


(** C2, as the specification has it, fails on its own example: the
    two-entry manifest for Opportunity completes normally. *)
Lemma C2_two_entry_manifest_returns :
  Z.of_nat (List.length (Manifest.photos opportunity2))
  <= - cutOff (Manifest.name opportunity2) /\
  exists info, selectedRoverInfo behindUTC opportunity2 = Normal info /\
               Info.maxDate info = Info.minDate info.
Proof.
  split; [vm_compute; discriminate | ].
  eexists. split; [vm_compute; reflexivity | reflexivity].
Qed.

(** C2, amended.  An empty photo sequence makes the computation fail, with
    the TypeError of reading a property of [undefined]; a non-empty sequence
    no longer than the cutoff does not fail, and the two-entry manifest for
    Opportunity gives a result. *)
Theorem C2_empty_manifest_throws (env : Env) (m : Manifest.photo_manifest) :
  (Manifest.photos m = [] ->
   selectedRoverInfo env m = Throw TypeError /\
   forall (Menu Apod Epic : Type) (state : State Menu Apod Epic),
     getRoverInfo env state m = Throw TypeError) /\
  (forall first rest,
     Manifest.photos m = first :: rest ->
     ArrayLength (sol (lastPhoto first (Manifest.photos m))) ->
     Z.of_nat (List.length (Manifest.photos m)) <= - cutOff (Manifest.name m) ->
     exists info, selectedRoverInfo env m = Normal info) /\
  exists info, selectedRoverInfo env opportunity2 = Normal info.
Proof.
  split; [ | split].
  - intros Hp.
    assert (H : selectedRoverInfo env m = Throw TypeError).
    { unfold selectedRoverInfo, disabledDates, missingSols. rewrite Hp.
      reflexivity. }
    split; [exact H | ].
    intros Menu Apod Epic state. unfold getRoverInfo. rewrite H. reflexivity.
  - intros first rest Hp Hlen _. eexists.
    apply (selectedRoverInfo_Normal env m first rest Hp Hlen).
  - eexists.
    apply (selectedRoverInfo_Normal env opportunity2 (mkPhoto 0 "2020-01-01")
             [mkPhoto 2 "2020-01-03"] eq_refl).
    vm_compute. split; [discriminate | reflexivity].
Qed.

(** ** The conversion between date strings and Dates: C8 *)

Lemma forallb_range (P : Z -> bool) (lo n : Z) :
  forallb P (range lo n) = true ->
  forall z, lo <= z < lo + n -> P z = true.
Proof.
  intros H z Hz. rewrite forallb_forall in H. apply H.
  unfold range. apply in_map_iff. exists (Z.to_nat (z - lo)).
  split; [lia | ]. apply in_seq. lia.
Qed.

Lemma digit_digitChar (n : Z) : 0 <= n <= 9 -> digit (digitChar n) = Some n.
Proof.
  intros H.
  pose proof (forallb_range
                (fun n => match digit (digitChar n) with
                          | Some k => k =? n
                          | None => false
                          end) 0 10 eq_refl n ltac:(lia)) as E.
  cbv beta in E. destruct (digit (digitChar n)); [ | discriminate].
  apply Z.eqb_eq in E. congruence.
Qed.

Lemma twoDigits_pad2 (n : Z) :
  0 <= n <= 99 ->
  twoDigits (digitChar (n / 10)) (digitChar (n mod 10)) = Some n.
Proof.
  intros H. unfold twoDigits. rewrite !digit_digitChar by lia.
  f_equal. lia.
Qed.

Lemma fourDigits_pad4 (n : Z) :
  0 <= n <= 9999 ->
  fourDigits (digitChar (n / 1000)) (digitChar (n / 100 mod 10))
             (digitChar (n mod 100 / 10)) (digitChar (n mod 100 mod 10))
  = Some n.
Proof.
  intros H. unfold fourDigits, twoDigits. rewrite !digit_digitChar by lia.
  f_equal. lia.
Qed.

Lemma String_of_Z_pad4 (y : Z) :
  1000 <= y <= 9999 -> String_of_Z y = pad4 y.
Proof.
  intros H. apply String.eqb_eq.
  apply (forallb_range (fun y => String.eqb (String_of_Z y) (pad4 y))
           1000 9000); [vm_compute; reflexivity | lia].
Qed.

Lemma padStart_pad2 (n : Z) :
  0 <= n <= 99 -> padStart (String_of_Z n) 2 "0" = pad2 n.
Proof.
  intros H. apply String.eqb_eq.
  apply (forallb_range
           (fun n => String.eqb (padStart (String_of_Z n) 2 "0") (pad2 n))
           0 100); [vm_compute; reflexivity | lia].
Qed.

Lemma inRange_true (lo hi x : Z) : lo <= x <= hi -> inRange lo hi x = true.
Proof.
  intros H. unfold inRange.
  destruct (Z.leb_spec lo x), (Z.leb_spec x hi);
    solve [reflexivity | exfalso; lia].
Qed.

Lemma dateTimeFields_dateString (y m d h : Z) :
  0 <= y <= 9999 -> 1 <= m <= 12 -> 1 <= d <= 31 -> 0 <= h <= 23 ->
  dateTimeFields (dateString y m d ++ "T" ++ pad2 h ++ ":00:00")
  = Some (y, m, d, h, 0, 0).
Proof.
  intros Hy Hm Hd Hh.
  unfold dateTimeFields, dateString, pad4, pad2.
  cbn [append list_ascii_of_string].
  change (Ascii.eqb "-" "-") with true.
  change (Ascii.eqb "T" "T") with true.
  change (Ascii.eqb ":" ":") with true.
  cbn [andb].
  rewrite (fourDigits_pad4 y) by lia.
  rewrite !twoDigits_pad2 by lia.
  change (twoDigits "0" "0") with (Some 0).
  rewrite (inRange_true 1 12 m), (inRange_true 1 31 d),
    (inRange_true 0 24 h) by lia.
  change (inRange 0 59 0) with true. cbn [andb].
  destruct (Z.ltb_spec h 24); [reflexivity | lia].
Qed.

Lemma getDateWithTimeString_behind_UTC (env : Env) (date : string) :
  0 <= timeZoneOffset env <= 23 ->
  getDateWithTimeString env date
  = (date ++ "T" ++ pad2 (timeZoneOffset env) ++ ":00:00")%string.
Proof.
  intros H. unfold getDateWithTimeString.
  destruct (Z.ltb_spec 0 (timeZoneOffset env)) as [Hpos | Hle].
  - rewrite padStart_pad2 by lia. reflexivity.
  - destruct (Z.ltb_spec (timeZoneOffset env) 0); [lia | ].
    replace (timeZoneOffset env) with 0 by lia. reflexivity.
Qed.

(** At or behind UTC, the Date of a date string is the date at the hour of
    the offset, local time. *)
Lemma apodStringToDate_dateString (env : Env) (y m d : Z) :
  validDate y m d ->
  0 <= timeZoneOffset env <= 23 ->
  apodStringToDate env (dateString y m d)
  = Date_at (UTC env (MakeDate (MakeDay y (m - 1) d)
                               (MakeTime (timeZoneOffset env) 0 0 0))).
Proof.
  intros Hv Htz. pose proof (dayOfYear_range y m d Hv) as Hr.
  destruct Hv as (Hy & Hm & Hd).
  assert (Hd31 : 1 <= d <= 31).
  { revert Hd. unfold DaysInMonth.
    destruct (DaysInYear y =? 366); month_cases m; lia. }
  unfold apodStringToDate.
  change (String.eqb (dateString y m d) "") with false. cbn [negb].
  rewrite getDateWithTimeString_behind_UTC by exact Htz.
  unfold Date_of_string, Date_parse.
  rewrite dateTimeFields_dateString by lia.
  rewrite TimeClip_in_range; [reflexivity | ].
  unfold UTC, MakeDate, MakeDay, MakeTime.
  replace ((m - 1) / 12) with 0 by lia.
  replace ((m - 1) mod 12) with (m - 1) by lia.
  rewrite Z.add_0_r.
  pose proof (DaysInYear_cases y) as Hdiy.
  revert Hr. generalize (DaysBeforeMonth y (m - 1)). intros b Hr.
  unfold DayFromYear, maxTime, msPerDay, msPerHour, msPerMinute, msPerSecond.
  lia.
Qed.

Lemma LocalTime_UTC (env : Env) (t : Z) : LocalTime env (UTC env t) = t.
Proof. unfold LocalTime, UTC. ring. Qed.

(** X1. At or behind UTC, a date of the years 1000 to 9999 converts to a
    Date and back to its own string. *)
Theorem round_trip_behind_UTC (env : Env) (y m d : Z) :
  validDate y m d ->
  1000 <= y ->
  0 <= timeZoneOffset env <= 23 ->
  dateToStringConverter env (apodStringToDate env (dateString y m d))
  = dateString y m d.
Proof.
  intros Hv Hy Htz.
  rewrite (apodStringToDate_dateString env y m d Hv Htz).
  unfold dateToStringConverter, getFullYear, getMonth, getDate.
  cbn [getTime option_map]. rewrite LocalTime_UTC.
  destruct (fields_of_MakeDay y m d (timeZoneOffset env) Hv Htz)
    as (-> & -> & ->).
  destruct Hv as (Hy' & Hm & Hd).
  assert (Hd31 : 1 <= d <= 31).
  { revert Hd. unfold DaysInMonth.
    destruct (DaysInYear y =? 366); month_cases m; lia. }
  cbn [num_add String_of_Number].
  replace (m - 1 + 1) with m by lia.
  rewrite String_of_Z_pad4, !padStart_pad2 by lia.
  reflexivity.
Qed.

Lemma DaysBeforeMonth_next (y m1 m2 d : Z) :
  validDate y m1 d -> 1 <= m2 <= 12 -> m1 < m2 ->
  DaysBeforeMonth y (m1 - 1) + d <= DaysBeforeMonth y (m2 - 1).
Proof.
  intros (_ & Hm1 & Hd) Hm2 Hlt. revert Hd.
  unfold DaysInMonth, DaysBeforeMonth.
  destruct (DaysInYear_cases y) as [-> | ->];
    month_cases m1; month_tables; intros Hd;
    month_cases m2; month_tables; lia.
Qed.

Lemma MakeDay_le (y1 m1 d1 y2 m2 d2 : Z) :
  validDate y1 m1 d1 -> validDate y2 m2 d2 ->
  calendar_le y1 m1 d1 y2 m2 d2 ->
  MakeDay y1 (m1 - 1) d1 <= MakeDay y2 (m2 - 1) d2.
Proof.
  intros Hv1 Hv2 Hle.
  pose proof (dayOfYear_range _ _ _ Hv1) as Hr1.
  pose proof (dayOfYear_range _ _ _ Hv2) as Hr2.
  unfold MakeDay.
  replace ((m1 - 1) / 12) with 0 by (destruct Hv1 as (_ & ? & _); lia).
  replace ((m2 - 1) / 12) with 0 by (destruct Hv2 as (_ & ? & _); lia).
  replace ((m1 - 1) mod 12) with (m1 - 1)
    by (destruct Hv1 as (_ & ? & _); lia).
  replace ((m2 - 1) mod 12) with (m2 - 1)
    by (destruct Hv2 as (_ & ? & _); lia).
  rewrite !Z.add_0_r.
  destruct Hle as [Hy | [<- [Hm | [<- Hd]]]].
  - assert (DayFromYear (y1 + 1) <= DayFromYear y2).
    { destruct (Z.eq_dec (y1 + 1) y2) as [-> | ]; [lia | ].
      apply Z.lt_le_incl, DayFromYear_lt. lia. }
    rewrite DayFromYear_succ in *. lia.
  - pose proof (DaysBeforeMonth_next y1 m1 m2 d1 Hv1
                  ltac:(destruct Hv2 as (_ & ? & _); lia) Hm).
    destruct Hv2 as (_ & _ & ?). lia.
  - lia.
Qed.

(** At or behind UTC, the Dates of two calendar dates are in the order of
    the calendar. *)
Lemma apodStringToDate_monotone (env : Env) (y1 m1 d1 y2 m2 d2 : Z) :
  0 <= timeZoneOffset env <= 23 ->
  validDate y1 m1 d1 -> validDate y2 m2 d2 ->
  calendar_le y1 m1 d1 y2 m2 d2 ->
  Date_le (apodStringToDate env (dateString y1 m1 d1))
          (apodStringToDate env (dateString y2 m2 d2)).
Proof.
  intros Htz Hv1 Hv2 Hle.
  rewrite !apodStringToDate_dateString by assumption.
  cbn [Date_le]. pose proof (MakeDay_le _ _ _ _ _ _ Hv1 Hv2 Hle) as H.
  unfold UTC, MakeDate, msPerDay. lia.
Qed.

(** At or behind UTC, a manifest with ascending calendar dates has ascending
    Dates. *)
Lemma ascendingEarthDates_ascendingDates (env : Env) (photos : list Photo) :
  0 <= timeZoneOffset env <= 23 ->
  ascendingEarthDates photos -> ascendingDates env photos.
Proof.
  intros Htz Hasc i j p q Hij Hi Hj.
  destruct (Hasc i j p q Hij Hi Hj)
    as (y1 & m1 & d1 & y2 & m2 & d2 & E1 & Hv1 & E2 & Hv2 & Hle).
  unfold earthDate. rewrite E1, E2.
  apply apodStringToDate_monotone; assumption.
Qed.

Lemma getDateWithTimeString_first_of_month (env : Env) (y m : Z) :
  timeZoneOffset env < 0 ->
  getDateWithTimeString env (dateString y m 1)
  = (pad4 y ++ "-" ++ pad2 m ++ "-00T"
     ++ padStart (String_of_Z (24 + timeZoneOffset env)) 2 "0"
     ++ ":00:00")%string.
Proof.
  intros Htz. unfold getDateWithTimeString.
  destruct (Z.ltb_spec 0 (timeZoneOffset env)); [lia | ].
  destruct (Z.ltb_spec (timeZoneOffset env) 0); [ | lia].
  unfold dateString, pad4. unfold pad2 at 1 2 3 4 5 6.
  unfold js_substring. cbn [append String.substring Nat.sub].
  change (digitChar (1 / 10)) with "0"%char.
  change (digitChar (1 mod 10)) with "1"%char.
  change (parseInt "01") with (Some 1).
  change (padStart (String_of_Number (num_add (Some 1) (Some (-1)))) 2 "0")
    with "00".
  reflexivity.
Qed.

Lemma dateTimeFields_day_00 (y m : Z) (rest : string) :
  dateTimeFields (pad4 y ++ "-" ++ pad2 m ++ "-00T" ++ rest) = None.
Proof.
  unfold dateTimeFields, pad4, pad2.
  cbn [append list_ascii_of_string].
  destruct (list_ascii_of_string rest)
    as [ | h1 [ | h2 [ | c4 [ | n1 [ | n2 [ | c5 [ | s1 [ | s2 [ | x l]]]]]]]]];
    try reflexivity.
  match goal with
  | |- (if ?c then _ else _) = None => destruct c; [ | reflexivity]
  end.
  change (twoDigits "0" "0") with (Some 0).
  repeat match goal with
         | |- context [match twoDigits ?a ?b with _ => _ end] =>
             destruct (twoDigits a b)
         | |- context [match fourDigits ?a ?b ?c ?d with _ => _ end] =>
             destruct (fourDigits a b c d)
         end; try reflexivity.
  change (inRange 1 31 0) with false.
  rewrite Bool.andb_false_r. reflexivity.
Qed.

(** C8 fails east of Greenwich: there the string built for the first day of
    a month names day 00 of the month, which is no date, and the Date made
    of it is an Invalid Date that converts to no date string. *)
Theorem C8_first_of_month_invalid_ahead_of_UTC (env : Env) (y m : Z) :
  timeZoneOffset env < 0 ->
  apodStringToDate env (dateString y m 1) = Invalid_Date /\
  dateToStringConverter env (apodStringToDate env (dateString y m 1))
  = "NaN-NaN-NaN".
Proof.
  intros Htz.
  assert (H : apodStringToDate env (dateString y m 1) = Invalid_Date).
  { unfold apodStringToDate.
    change (String.eqb (dateString y m 1) "") with false. cbn [negb].
    rewrite getDateWithTimeString_first_of_month by exact Htz.
    unfold Date_of_string, Date_parse.
    rewrite dateTimeFields_day_00. reflexivity. }
  rewrite H. split; reflexivity.
Qed.

(** The first of March 2020, an hour ahead of UTC. *)
Lemma C8_first_of_month_invalid_ahead_of_UTC_witness :
  apodStringToDate aheadOfUTC "2020-03-01" = Invalid_Date /\
  dateToStringConverter aheadOfUTC (apodStringToDate aheadOfUTC "2020-03-01")
  = "NaN-NaN-NaN".
Proof.
  apply (C8_first_of_month_invalid_ahead_of_UTC aheadOfUTC 2020 3).
  reflexivity.
Defined.

(** On the other days of the month the Date is the evening before, an hour
    ahead of UTC, and converts to the day before. *)
Lemma previous_day_ahead_of_UTC :
  getDateWithTimeString aheadOfUTC "2020-03-01" = "2020-03-00T23:00:00" /\
  getDateWithTimeString aheadOfUTC "2020-03-15" = "2020-03-14T23:00:00" /\
  dateToStringConverter aheadOfUTC (apodStringToDate aheadOfUTC "2020-03-15")
  = "2020-03-14".
Proof. repeat split; vm_compute; reflexivity. Qed.

(** So it is that, an hour ahead of UTC, a manifest that begins on the first
    of a month gets no [minDate], and no disabled date. *)
Lemma minDate_invalid_ahead_of_UTC :
  exists info,
    selectedRoverInfo aheadOfUTC opportunity6 = Normal info /\
    Info.minDate info = Invalid_Date /\
    Info.disabledDates info = [Invalid_Date].
Proof. eexists. split; [vm_compute; reflexivity | split; reflexivity]. Qed.

(** ** The clock and the store: C9 *)

(** Only an empty date string makes [apodStringToDate] read the clock. *)
Lemma apodStringToDate_clock (tz now1 now2 : Z) (date : string) :
  date <> "" ->
  apodStringToDate (mkEnv tz now1) date = apodStringToDate (mkEnv tz now2) date.
Proof.
  intros Hd. unfold apodStringToDate.
  destruct (String.eqb_spec date ""); [contradiction | reflexivity].
Qed.

Lemma getDate_timeZone (env1 env2 : Env) (d : Date) :
  timeZoneOffset env1 = timeZoneOffset env2 ->
  getDate env1 d = getDate env2 d.
Proof. intros H. unfold getDate, LocalTime. rewrite H. reflexivity. Qed.

Lemma setDate_timeZone (env1 env2 : Env) (d : Date) (n : Number) :
  timeZoneOffset env1 = timeZoneOffset env2 ->
  setDate env1 d n = setDate env2 d n.
Proof. intros H. unfold setDate, LocalTime, UTC. rewrite H. reflexivity. Qed.

Lemma disabledDate_clock (tz now1 now2 : Z) (photos : list Photo) (s : Z) :
  Forall (fun p => earth_date p <> "") photos ->
  disabledDate (mkEnv tz now1) photos s = disabledDate (mkEnv tz now2) photos s.
Proof.
  intros Hd. unfold disabledDate.
  destruct photos as [ | first rest]; cbn [item0 bind]; [reflexivity | ].
  apply Forall_inv in Hd.
  rewrite (apodStringToDate_clock tz now1 now2 _ Hd).
  rewrite (getDate_timeZone (mkEnv tz now1) (mkEnv tz now2)) by reflexivity.
  rewrite (setDate_timeZone (mkEnv tz now1) (mkEnv tz now2)) by reflexivity.
  reflexivity.
Qed.

Lemma selectedRoverInfo_clock (tz now1 now2 : Z)
    (m : Manifest.photo_manifest) :
  Forall (fun p => earth_date p <> "") (Manifest.photos m) ->
  selectedRoverInfo (mkEnv tz now1) m = selectedRoverInfo (mkEnv tz now2) m.
Proof.
  intros Hd. pose proof Hd as Hall. rewrite Forall_forall in Hall.
  unfold selectedRoverInfo, disabledDates.
  destruct (missingSols (Manifest.photos m)) as [ms | e];
    [ | reflexivity].
  cbn [bind].
  rewrite (mapM_ext _ (disabledDate (mkEnv tz now2) (Manifest.photos m)))
    by (intros; apply disabledDate_clock; exact Hd).
  destruct (mapM _ ms) as [ds | e]; [ | reflexivity]. cbn [bind].
  destruct (item0 (Manifest.photos m)) as [first | e] eqn:E1;
    [ | reflexivity].
  cbn [bind].
  destruct (item0 (slice (Manifest.photos m) (cutOff (Manifest.name m))))
    as [boundary | e] eqn:E2; [ | reflexivity].
  cbn [bind].
  destruct (item0 (slice (Manifest.photos m) (-1))) as [last | e] eqn:E3;
    [ | reflexivity].
  cbn [bind].
  rewrite (apodStringToDate_clock tz now1 now2 (earth_date first))
    by (apply Hall, item0_In, E1).
  rewrite (apodStringToDate_clock tz now1 now2 (earth_date boundary))
    by (apply Hall, (item0_slice_In _ _ _ E2)).
  rewrite (apodStringToDate_clock tz now1 now2 (earth_date last))
    by (apply Hall, (item0_slice_In _ _ _ E3)).
  reflexivity.
Qed.

(** C9, as the specification has it, fails on both counts.  With one time
    zone, the manifest whose first entry has an empty earth date gives
    another [minDate] at another time of the clock; and the computation
    leaves the store other than it found it. *)
Lemma C9_clock_and_store_matter :
  (timeZoneOffset behindUTC = timeZoneOffset (mkEnv 5 0) /\
   selectedRoverInfo behindUTC undatedManifest
   <> selectedRoverInfo (mkEnv 5 0) undatedManifest) /\
  (exists state',
     getRoverInfo behindUTC initialState curiosity6 = Normal state' /\
     state' <> initialState).
Proof.
  split.
  - split; [reflexivity | vm_compute; discriminate].
  - eexists. split; [vm_compute; reflexivity | discriminate].
Qed.

(** C9, amended.  With the time zone held fixed, and no earth date of the
    manifest empty, the result is the same whatever the clock says.  The
    computation writes to the store: it replaces [selectedRoverInfo] and
    [photos] of the rovers branch, and leaves [selectedRover] and the
    branches [menu], [apod] and [epic] as they were. *)
Theorem C9_deterministic_up_to_store (env1 env2 : Env)
    (m : Manifest.photo_manifest) :
  timeZoneOffset env1 = timeZoneOffset env2 ->
  Forall (fun p => earth_date p <> "") (Manifest.photos m) ->
  selectedRoverInfo env1 m = selectedRoverInfo env2 m /\
  forall (Menu Apod Epic : Type) (state : State Menu Apod Epic),
    getRoverInfo env1 state m = getRoverInfo env2 state m /\
    forall state',
      getRoverInfo env1 state m = Normal state' ->
      menu state' = menu state /\
      apod state' = apod state /\
      epic state' = epic state /\
      Rovers.selectedRover (rovers state')
      = Rovers.selectedRover (rovers state) /\
      exists info,
        selectedRoverInfo env1 m = Normal info /\
        Rovers.selectedRoverInfo (rovers state') = Some info.
Proof.
  destruct env1 as [tz now1], env2 as [tz2 now2]. cbn [timeZoneOffset].
  intros <- Hd.
  pose proof (selectedRoverInfo_clock tz now1 now2 m Hd) as Heq.
  split; [exact Heq | ].
  intros Menu Apod Epic state.
  split; [unfold getRoverInfo; rewrite Heq; reflexivity | ].
  intros state'. unfold getRoverInfo.
  destruct (selectedRoverInfo (mkEnv tz now1) m) as [info | e];
    [ | discriminate].
  cbn [bind].
  destruct (item0 _) as [boundary | e]; [ | discriminate].
  cbn [bind]. intros [= <-]. cbn.
  repeat (split; [reflexivity | ]).
  exists info. split; reflexivity.
Qed.

(** ** The theorems at sample manifests *)

(** The manifest without photos. *)
Lemma C2_empty_manifest_throws_witness :
  selectedRoverInfo behindUTC emptyManifest = Throw TypeError.
Proof.
  apply (proj1 (C2_empty_manifest_throws behindUTC emptyManifest)).
  reflexivity.
Defined.


(** A manifest that records sol 0. *)
Lemma C4_minDate_not_disabled_witness :
  exists info,
    selectedRoverInfo behindUTC opportunity6 = Normal info /\
    forall d, In d (Info.disabledDates info) ->
              ~ Date_eq d (Info.minDate info).
Proof.
  destruct (C4_minDate_not_disabled behindUTC opportunity6
              (mkPhoto 0 "2020-01-01")
              (List.tl (Manifest.photos opportunity6)))
    as (info & Hinfo & Hnot & _).
  - reflexivity.
  - vm_compute. split; [discriminate | reflexivity].
  - exists info. split; [exact Hinfo | ]. apply Hnot. left. reflexivity.
Defined.

(** Sols 0 to 5, all recorded. *)
Lemma C6_no_missing_sol_witness :
  exists info,
    selectedRoverInfo behindUTC curiosity6 = Normal info /\
    Info.disabledDates info = [].
Proof.
  destruct (C6_no_missing_sol behindUTC curiosity6
              (mkPhoto 0 "2012-08-06")
              (List.tl (Manifest.photos curiosity6)))
    as (info & ms & Hinfo & _ & _ & Hnone).
  - reflexivity.
  - vm_compute. split; [discriminate | reflexivity].
  - exists info. split; [exact Hinfo | ]. apply Hnone.
    intros s Hs. change (0 <= s <= 5) in Hs.
    cbn [curiosity6 manifestOf Manifest.photos map sol In]. lia.
Defined.

(** One time zone, two times of the clock. *)
Lemma C9_deterministic_up_to_store_witness :
  selectedRoverInfo behindUTC curiosity6
  = selectedRoverInfo (mkEnv 5 0) curiosity6.
Proof.
  apply (C9_deterministic_up_to_store behindUTC (mkEnv 5 0) curiosity6).
  - reflexivity.
  - repeat constructor; discriminate.
Defined.


(** * More about the date helpers *)

(** ** From a Date to its string and back *)

Lemma day_in_month_31 (y m d : Z) : validDate y m d -> 1 <= d <= 31.
Proof.
  intros (_ & Hm & Hd). revert Hd. unfold DaysInMonth.
  destruct (DaysInYear y =? 366); month_cases m; lia.
Qed.

(** The string of the Date at a whole hour of a day of the calendar. *)
Lemma dateToStringConverter_local (env : Env) (y m d h : Z) :
  validDate y m d -> 1000 <= y -> 0 <= h <= 23 ->
  dateToStringConverter env
    (Date_at (UTC env (MakeDate (MakeDay y (m - 1) d) (MakeTime h 0 0 0))))
  = dateString y m d.
Proof.
  intros Hv Hy Hh.
  unfold dateToStringConverter, getFullYear, getMonth, getDate.
  cbn [getTime option_map]. rewrite LocalTime_UTC.
  destruct (fields_of_MakeDay y m d h Hv Hh) as (-> & -> & ->).
  pose proof (day_in_month_31 y m d Hv) as Hd31.
  destruct Hv as (Hy' & Hm & Hd).
  cbn [num_add String_of_Number].
  replace (m - 1 + 1) with m by lia.
  rewrite String_of_Z_pad4, !padStart_pad2 by lia.
  reflexivity.
Qed.

(** The Date of a date-time string of a whole hour, whatever the zone. *)
Lemma Date_of_string_dateString (env : Env) (y m d h : Z) :
  validDate y m d -> 0 <= h <= 23 -> -24 <= timeZoneOffset env <= 24 ->
  Date_of_string env (dateString y m d ++ "T" ++ pad2 h ++ ":00:00")
  = Date_at (UTC env (MakeDate (MakeDay y (m - 1) d) (MakeTime h 0 0 0))).
Proof.
  intros Hv Hh Htz. pose proof (dayOfYear_range y m d Hv) as Hr.
  pose proof (day_in_month_31 y m d Hv) as Hd31.
  destruct Hv as (Hy & Hm & Hd).
  unfold Date_of_string, Date_parse.
  rewrite dateTimeFields_dateString by lia.
  rewrite TimeClip_in_range; [reflexivity | ].
  unfold UTC, MakeDate, MakeDay, MakeTime.
  replace ((m - 1) / 12) with 0 by lia.
  replace ((m - 1) mod 12) with (m - 1) by lia.
  rewrite Z.add_0_r.
  pose proof (DaysInYear_cases y) as Hdiy.
  revert Hr. generalize (DaysBeforeMonth y (m - 1)). intros b Hr.
  unfold DayFromYear, maxTime, msPerDay, msPerHour, msPerMinute, msPerSecond.
  lia.
Qed.

(** The calendar fields of a time value make a date of the calendar. *)
Lemma fields_validDate (t : Z) :
  0 <= YearFromTime t <= 9999 ->
  validDate (YearFromTime t) (MonthFromTime t + 1) (DateFromTime t).
Proof.
  intros Hy. pose proof (DayWithinYear_range t) as Hr.
  pose proof (MonthFromTime_range t) as Hm.
  split; [exact Hy | ]. split; [lia | ].
  revert Hr. unfold DateFromTime, MonthFromTime, DaysInMonth, InLeapYear.
  generalize (DayWithinYear t). intros w.
  destruct (DaysInYear_cases (YearFromTime t)) as [-> | ->];
    change (365 =? 366) with false; change (366 =? 366) with true;
    cbv beta iota; intros Hr;
    repeat match goal with
           | |- context [?a <? ?b] => destruct (Z.ltb_spec a b)
           end;
    cbn [Z.add Pos.add Pos.succ]; cbv beta iota; lia.
Qed.

Lemma parseInt_pad2 (n : Z) : 0 <= n <= 99 -> parseInt (pad2 n) = Some n.
Proof.
  intros H.
  pose proof (forallb_range
                (fun n => match parseInt (pad2 n) with
                          | Some k => k =? n
                          | None => false
                          end) 0 100 eq_refl n ltac:(lia)) as E.
  cbv beta in E. destruct (parseInt (pad2 n)); [ | discriminate].
  apply Z.eqb_eq in E. congruence.
Qed.

(** Ahead of UTC the string names the day before, at 24 hours less the
    offset. *)
Lemma getDateWithTimeString_ahead_of_UTC (env : Env) (y m d : Z) :
  -23 <= timeZoneOffset env <= -1 -> 1 <= d <= 99 ->
  getDateWithTimeString env (dateString y m d)
  = (dateString y m (d - 1) ++ "T" ++ pad2 (24 + timeZoneOffset env)
     ++ ":00:00")%string.
Proof.
  intros Htz Hd. unfold getDateWithTimeString.
  destruct (Z.ltb_spec 0 (timeZoneOffset env)); [lia | ].
  destruct (Z.ltb_spec (timeZoneOffset env) 0); [ | lia].
  rewrite (padStart_pad2 (24 + timeZoneOffset env)) by lia.
  assert (E1 : js_substring (dateString y m d) 0 8
               = (pad4 y ++ "-" ++ pad2 m ++ "-")%string) by reflexivity.
  assert (E2 : js_substring (dateString y m d) 8 10 = pad2 d) by reflexivity.
  rewrite E1, E2, parseInt_pad2 by lia.
  cbn [num_add String_of_Number].
  replace (d + -1) with (d - 1) by lia.
  rewrite padStart_pad2 by lia. reflexivity.
Qed.

(** Ahead of UTC the Date of a date, from the second of a month on, is a
    Date of the day before. *)
Lemma apodStringToDate_ahead_of_UTC (env : Env) (y m d : Z) :
  validDate y m d -> 2 <= d ->
  -23 <= timeZoneOffset env <= -1 ->
  apodStringToDate env (dateString y m d)
  = Date_at (UTC env (MakeDate (MakeDay y (m - 1) (d - 1))
                               (MakeTime (24 + timeZoneOffset env) 0 0 0))).
Proof.
  intros Hv Hd Htz.
  pose proof (day_in_month_31 y m d Hv) as Hd31.
  assert (Hv' : validDate y m (d - 1))
    by (destruct Hv as (? & ? & ?); repeat split; lia).
  unfold apodStringToDate.
  change (String.eqb (dateString y m d) "") with false. cbn [negb].
  rewrite getDateWithTimeString_ahead_of_UTC by lia.
  apply Date_of_string_dateString; (assumption || lia).
Qed.

(** X2. Ahead of UTC, by 1 to 23 hours, a date from the second of a month on
    converts to a Date and back to the string of the day before. *)
Theorem day_before_ahead_of_UTC (env : Env) (y m d : Z) :
  validDate y m d -> 2 <= d -> 1000 <= y ->
  -23 <= timeZoneOffset env <= -1 ->
  dateToStringConverter env (apodStringToDate env (dateString y m d))
  = dateString y m (d - 1).
Proof.
  intros Hv Hd Hy Htz.
  rewrite apodStringToDate_ahead_of_UTC by assumption.
  apply dateToStringConverter_local; [ | lia | lia].
  destruct Hv as (? & ? & ?). repeat split; lia.
Qed.

(** The Ides of March 2020, an hour ahead of UTC. *)
Lemma day_before_ahead_of_UTC_witness :
  dateToStringConverter aheadOfUTC (apodStringToDate aheadOfUTC "2020-03-15")
  = "2020-03-14".
Proof.
  apply (day_before_ahead_of_UTC aheadOfUTC 2020 3 15).
  - vm_compute. repeat split; discriminate.
  - lia.
  - lia.
  - vm_compute. split; discriminate.
Defined.

(** X3. A Date of years 1000 to 9999, local time, converts to its string
    and, in a zone a whole number of hours, from 0 to 23, behind UTC, back
    to a Date of the same string: a Date of the same day. *)
Theorem Date_string_Date_same_day (env : Env) (tv : Z) :
  0 <= timeZoneOffset env <= 23 ->
  1000 <= YearFromTime (LocalTime env tv) <= 9999 ->
  dateToStringConverter env
    (apodStringToDate env (dateToStringConverter env (Date_at tv)))
  = dateToStringConverter env (Date_at tv).
Proof.
  intros Htz Hy.
  pose proof (fields_validDate (LocalTime env tv) ltac:(lia)) as Hv.
  pose proof (day_in_month_31 _ _ _ Hv) as Hd31.
  pose proof (MonthFromTime_range (LocalTime env tv)) as Hm.
  assert (E : dateToStringConverter env (Date_at tv)
              = dateString (YearFromTime (LocalTime env tv))
                           (MonthFromTime (LocalTime env tv) + 1)
                           (DateFromTime (LocalTime env tv))).
  { unfold dateToStringConverter, getFullYear, getMonth, getDate.
    cbn [getTime option_map num_add String_of_Number].
    rewrite String_of_Z_pad4, !padStart_pad2 by lia. reflexivity. }
  rewrite E. rewrite apodStringToDate_dateString by assumption.
  apply dateToStringConverter_local; (assumption || lia).
Qed.

Lemma Date_string_Date_same_day_witness :
  dateToStringConverter behindUTC
    (apodStringToDate behindUTC
       (dateToStringConverter behindUTC (Date_at 1604361600000)))
  = dateToStringConverter behindUTC (Date_at 1604361600000).
Proof.
  apply (Date_string_Date_same_day behindUTC 1604361600000).
  - vm_compute. split; discriminate.
  - vm_compute. split; discriminate.
Defined.

(** X4. An empty date string stands for today: in a zone a whole number of
    hours, from 0 to 23, behind UTC, [apodStringToDate] makes of it a Date
    of the day of the clock (a day of the local years 1000 to 9999). *)
Theorem empty_date_is_today (env : Env) :
  0 <= timeZoneOffset env <= 23 ->
  1000 <= YearFromTime (LocalTime env (currentTime env)) <= 9999 ->
  dateToStringConverter env (apodStringToDate env "")
  = dateToStringConverter env (Date_now env).
Proof.
  intros Htz Hy.
  pose proof (fields_validDate (LocalTime env (currentTime env))
                ltac:(lia)) as Hv.
  pose proof (day_in_month_31 _ _ _ Hv) as Hd31.
  pose proof (MonthFromTime_range (LocalTime env (currentTime env))) as Hm.
  assert (E : dateToStringConverter env (Date_now env)
              = dateString (YearFromTime (LocalTime env (currentTime env)))
                           (MonthFromTime (LocalTime env (currentTime env)) + 1)
                           (DateFromTime (LocalTime env (currentTime env)))).
  { unfold dateToStringConverter, getFullYear, getMonth, getDate, Date_now.
    cbn [getTime option_map num_add String_of_Number].
    rewrite String_of_Z_pad4, !padStart_pad2 by lia. reflexivity. }
  unfold apodStringToDate, apodDateToString.
  change (negb (String.eqb "" "")) with false. cbv beta iota.
  rewrite E.
  rewrite getDateWithTimeString_behind_UTC by exact Htz.
  rewrite Date_of_string_dateString by (assumption || lia).
  apply dateToStringConverter_local; (assumption || lia).
Qed.

Lemma empty_date_is_today_witness :
  dateToStringConverter behindUTC (apodStringToDate behindUTC "")
  = dateToStringConverter behindUTC (Date_now behindUTC).
Proof.
  apply (empty_date_is_today behindUTC).
  - vm_compute. split; discriminate.
  - vm_compute. split; discriminate.
Defined.

Lemma round_trip_behind_UTC_witness :
  dateToStringConverter behindUTC (apodStringToDate behindUTC "2024-02-29")
  = "2024-02-29".
Proof.
  apply (round_trip_behind_UTC behindUTC 2024 2 29).
  - vm_compute. repeat split; discriminate.
  - lia.
  - vm_compute. split; discriminate.
Defined.

Lemma MakeDay_lt (y1 m1 d1 y2 m2 d2 : Z) :
  validDate y1 m1 d1 -> validDate y2 m2 d2 ->
  calendar_lt y1 m1 d1 y2 m2 d2 ->
  MakeDay y1 (m1 - 1) d1 < MakeDay y2 (m2 - 1) d2.
Proof.
  intros Hv1 Hv2 Hlt.
  pose proof (dayOfYear_range _ _ _ Hv1) as Hr1.
  pose proof (dayOfYear_range _ _ _ Hv2) as Hr2.
  unfold MakeDay.
  replace ((m1 - 1) / 12) with 0 by (destruct Hv1 as (_ & ? & _); lia).
  replace ((m2 - 1) / 12) with 0 by (destruct Hv2 as (_ & ? & _); lia).
  replace ((m1 - 1) mod 12) with (m1 - 1)
    by (destruct Hv1 as (_ & ? & _); lia).
  replace ((m2 - 1) mod 12) with (m2 - 1)
    by (destruct Hv2 as (_ & ? & _); lia).
  rewrite !Z.add_0_r.
  destruct Hlt as [Hy | [<- [Hm | [<- Hd]]]].
  - assert (DayFromYear (y1 + 1) <= DayFromYear y2).
    { destruct (Z.eq_dec (y1 + 1) y2) as [-> | ]; [lia | ].
      apply Z.lt_le_incl, DayFromYear_lt. lia. }
    rewrite DayFromYear_succ in *. lia.
  - pose proof (DaysBeforeMonth_next y1 m1 m2 d1 Hv1
                  ltac:(destruct Hv2 as (_ & ? & _); lia) Hm).
    destruct Hv2 as (_ & _ & ?). lia.
  - lia.
Qed.

(** X5. In a zone a whole number of hours, from 0 to 23, behind UTC, the
    earlier of two dates of the calendar gets the strictly earlier Date:
    comparing the Dates compares the days. *)
Theorem apodStringToDate_strictly_increasing (env : Env)
    (y1 m1 d1 y2 m2 d2 : Z) :
  0 <= timeZoneOffset env <= 23 ->
  validDate y1 m1 d1 -> validDate y2 m2 d2 ->
  calendar_lt y1 m1 d1 y2 m2 d2 ->
  Date_lt (apodStringToDate env (dateString y1 m1 d1))
          (apodStringToDate env (dateString y2 m2 d2)).
Proof.
  intros Htz Hv1 Hv2 Hlt.
  rewrite !apodStringToDate_dateString by assumption.
  cbn [Date_lt]. pose proof (MakeDay_lt _ _ _ _ _ _ Hv1 Hv2 Hlt) as H.
  unfold UTC, MakeDate, msPerDay. lia.
Qed.

Lemma apodStringToDate_strictly_increasing_witness :
  Date_lt (apodStringToDate behindUTC "2023-12-31")
          (apodStringToDate behindUTC "2024-01-01").
Proof.
  apply (apodStringToDate_strictly_increasing behindUTC 2023 12 31 2024 1 1).
  - vm_compute. split; discriminate.
  - vm_compute. repeat split; discriminate.
  - vm_compute. repeat split; discriminate.
  - left. lia.
Defined.

(** X6. Ahead of UTC, by 1 to 23 hours, no date of the years 1000 to 9999
    survives the conversion to a Date and back: the string that comes back
    is never the string that went in. *)
Theorem never_round_trips_ahead_of_UTC (env : Env) (y m d : Z) :
  validDate y m d -> 1000 <= y ->
  -23 <= timeZoneOffset env <= -1 ->
  dateToStringConverter env (apodStringToDate env (dateString y m d))
  <> dateString y m d.
Proof.
  intros Hv Hy Htz.
  pose proof (day_in_month_31 y m d Hv) as Hd31.
  destruct (Z.eq_dec d 1) as [-> | Hd].
  - unfold apodStringToDate.
    change (String.eqb (dateString y m 1) "") with false. cbn [negb].
    rewrite getDateWithTimeString_first_of_month by lia.
    unfold Date_of_string, Date_parse.
    rewrite dateTimeFields_day_00.
    change (dateToStringConverter env Invalid_Date) with "NaN-NaN-NaN".
    intros H. apply (f_equal String.length) in H. discriminate H.
  - rewrite apodStringToDate_ahead_of_UTC by (assumption || lia).
    rewrite dateToStringConverter_local;
      [ | destruct Hv as (? & ? & ?); repeat split; lia | lia | lia].
    intros H. apply (f_equal (fun s => parseInt (js_substring s 8 10))) in H.
    change (js_substring (dateString y m (d - 1)) 8 10)
      with (pad2 (d - 1)) in H.
    change (js_substring (dateString y m d) 8 10) with (pad2 d) in H.
    rewrite !parseInt_pad2 in H by lia. injection H. lia.
Qed.

Lemma never_round_trips_ahead_of_UTC_witness :
  dateToStringConverter aheadOfUTC (apodStringToDate aheadOfUTC "2024-02-29")
  <> "2024-02-29".
Proof.
  apply (never_round_trips_ahead_of_UTC aheadOfUTC 2024 2 29).
  - vm_compute. repeat split; discriminate.
  - lia.
  - vm_compute. split; discriminate.
Defined.

(** * More about [getRoverInfo] *)

(** X7. When the sol of the last entry cannot be the length of an array, a
    negative number or one from 2^32 on, the callback throws a RangeError
    and leaves no new state. *)
Theorem getRoverInfo_RangeError (env : Env) (m : Manifest.photo_manifest)
    (first : Photo) (rest : list Photo) :
  Manifest.photos m = first :: rest ->
  ~ ArrayLength (sol (lastPhoto first (Manifest.photos m))) ->
  selectedRoverInfo env m = Throw RangeError /\
  forall (Menu Apod Epic : Type) (state : State Menu Apod Epic),
    getRoverInfo env state m = Throw RangeError.
Proof.
  intros Hp Hlen.
  assert (H : selectedRoverInfo env m = Throw RangeError).
  { unfold selectedRoverInfo, disabledDates, missingSols.
    rewrite item0_slice.
    rewrite (sliceStart_negative (Manifest.photos m) (-1)) by lia.
    change (Z.to_nat (- -1)) with 1%nat.
    rewrite (nth_error_nth_lt _ _ first)
      by (rewrite Hp; cbn [List.length]; lia).
    cbn [bind]. fold (lastPhoto first (Manifest.photos m)).
    unfold Array_indices, ArrayLength in *.
    destruct (Z.leb_spec 0 (sol (lastPhoto first (Manifest.photos m))));
      destruct (Z.ltb_spec (sol (lastPhoto first (Manifest.photos m)))
                           (2 ^ 32));
      try reflexivity.
    exfalso. apply Hlen. split; assumption. }
  split; [exact H | ].
  intros Menu Apod Epic state. unfold getRoverInfo. rewrite H. reflexivity.
Qed.

Lemma getRoverInfo_RangeError_witness :
  selectedRoverInfo behindUTC negativeSolManifest = Throw RangeError /\
  forall (Menu Apod Epic : Type) (state : State Menu Apod Epic),
    getRoverInfo behindUTC state negativeSolManifest = Throw RangeError.
Proof.
  apply (getRoverInfo_RangeError behindUTC negativeSolManifest
           (mkPhoto 0 "2012-08-06") [mkPhoto (-1) "2012-08-07"]).
  - reflexivity.
  - vm_compute. intros [H _]. apply H. reflexivity.
Defined.

(** X8. The date requested for the photos is the one behind [maxDate] and
    [startDate]: whenever the callback completes, both are the Date of
    [reqDate]; and in a zone a whole number of hours, from 0 to 23, behind
    UTC, [maxDate] converts back to [reqDate] when that is a date of the
    years 1000 to 9999. *)
Theorem maxDate_is_requested_date {Menu Apod Epic : Type} (env : Env)
    (state state' : State Menu Apod Epic) (m : Manifest.photo_manifest) :
  getRoverInfo env state m = Normal state' ->
  exists info,
    Rovers.selectedRoverInfo (rovers state') = Some info /\
    let reqDate := Rovers.reqDate (Rovers.photos (rovers state')) in
    Info.maxDate info = apodStringToDate env reqDate /\
    Info.startDate info = apodStringToDate env reqDate /\
    forall y mo d,
      0 <= timeZoneOffset env <= 23 ->
      validDate y mo d -> 1000 <= y ->
      reqDate = dateString y mo d ->
      dateToStringConverter env (Info.maxDate info) = reqDate.
Proof.
  unfold getRoverInfo.
  destruct (selectedRoverInfo env m) as [info | e] eqn:E; [ | discriminate].
  cbn [bind].
  destruct (item0 (slice (Manifest.photos m) (cutOff (Manifest.name m))))
    as [boundary | e] eqn:Eb; [ | discriminate].
  cbn [bind]. intros [= <-]. exists info.
  cbn [rovers Rovers.selectedRoverInfo Rovers.photos Rovers.reqDate].
  split; [reflexivity | ].
  unfold selectedRoverInfo in E.
  destruct (disabledDates env (Manifest.photos m)) as [ds | e];
    [ | discriminate].
  cbn [bind] in E.
  destruct (item0 (Manifest.photos m)) as [first | e]; [ | discriminate].
  cbn [bind] in E. rewrite Eb in E. cbn [bind] in E.
  destruct (item0 (slice (Manifest.photos m) (-1))) as [last | e];
    [ | discriminate].
  cbn [bind] in E. injection E as <-.
  cbn [Info.maxDate Info.startDate].
  split; [reflexivity | ]. split; [reflexivity | ].
  intros y mo d Htz Hv Hy ->.
  rewrite apodStringToDate_dateString by assumption.
  apply dateToStringConverter_local; (assumption || lia).
Qed.

Lemma maxDate_is_requested_date_witness :
  exists state' info,
    getRoverInfo behindUTC initialState opportunity6 = Normal state' /\
    Rovers.selectedRoverInfo (rovers state') = Some info /\
    Rovers.reqDate (Rovers.photos (rovers state')) = "2020-01-02" /\
    dateToStringConverter behindUTC (Info.maxDate info) = "2020-01-02".
Proof.
  destruct (getRoverInfo behindUTC initialState opportunity6)
    as [state' | e] eqn:E; [ | vm_compute in E; discriminate E].
  destruct (maxDate_is_requested_date behindUTC initialState state'
              opportunity6 E) as (info & Hinfo & _ & _ & Hback).
  exists state', info.
  assert (Hreq : Rovers.reqDate (Rovers.photos (rovers state'))
                 = "2020-01-02")
    by (vm_compute in E; injection E as <-; reflexivity).
  split; [reflexivity | ]. split; [exact Hinfo | ]. split; [exact Hreq | ].
  rewrite <- Hreq. apply (Hback 2020 1 2).
  - vm_compute. split; discriminate.
  - vm_compute. repeat split; discriminate.
  - lia.
  - exact Hreq.
Defined.

Lemma NoDup_indices (start n : nat) : NoDup (map Z.of_nat (seq start n)).
Proof.
  revert start. induction n as [ | n IH]; intros start; cbn [seq map].
  - constructor.
  - constructor; [ | apply IH].
    rewrite in_map_iff. intros [k [Hk Hin]]. apply in_seq in Hin. lia.
Qed.

Lemma length_recorded_below_last (first : Photo) (photos : list Photo) :
  In (lastPhoto first photos) photos ->
  NoDup (map sol photos) ->
  (forall s, In s (map sol photos) ->
             0 <= s <= sol (lastPhoto first photos)) ->
  (List.length photos
   = 1 + List.length
           (filter (fun sol' => includes (map sol photos) sol')
                   (map Z.of_nat
                        (seq 0 (Z.to_nat (sol (lastPhoto first photos)))))))%nat.
Proof.
  intros Hlast Hnd Hrange.
  set (last := sol (lastPhoto first photos)) in *.
  set (below := filter _ _).
  assert (Hin : forall s, In s below <-> In s (map sol photos) /\ s < last).
  { intros s. unfold below. rewrite filter_In, In_indices, includes_In.
    split.
    - intros [H1 H2]. split; [exact H2 | lia].
    - intros [H1 H2]. pose proof (Hrange s H1). split; [lia | exact H1]. }
  assert (Hnd' : NoDup (last :: below)).
  { constructor.
    - intros H. apply Hin in H. lia.
    - unfold below. apply NoDup_filter, NoDup_indices. }
  rewrite <- (length_map sol photos).
  change (1 + List.length below)%nat with (List.length (last :: below)).
  apply Nat.le_antisymm.
  - apply NoDup_incl_length; [exact Hnd | ].
    intros s Hs. destruct (Z.eq_dec s last) as [-> | Hne]; [left; reflexivity | ].
    right. apply Hin. split; [exact Hs | ]. pose proof (Hrange s Hs). lia.
  - apply NoDup_incl_length; [exact Hnd' | ].
    intros s [<- | Hs]; [apply in_map; exact Hlast | apply Hin in Hs; tauto].
Qed.

(** X9. When the recorded sols are distinct and none exceeds the sol of the
    last entry, the disabled dates number as many as the sols from 0 to the
    last that are not recorded: last sol + 1 less the number of entries. *)
Theorem disabledDates_count (env : Env) (m : Manifest.photo_manifest)
    (first : Photo) (rest : list Photo) :
  Manifest.photos m = first :: rest ->
  ArrayLength (sol (lastPhoto first (Manifest.photos m))) ->
  NoDup (map sol (Manifest.photos m)) ->
  (forall s, In s (map sol (Manifest.photos m)) ->
             0 <= s <= sol (lastPhoto first (Manifest.photos m))) ->
  exists info,
    selectedRoverInfo env m = Normal info /\
    Z.of_nat (List.length (Info.disabledDates info))
    + Z.of_nat (List.length (Manifest.photos m))
    = sol (lastPhoto first (Manifest.photos m)) + 1.
Proof.
  intros Hp Hlen Hnd Hrange.
  exists (infoOf env m first).
  split; [apply (selectedRoverInfo_Normal env m first rest Hp Hlen) | ].
  unfold infoOf. cbn [Info.disabledDates]. rewrite length_map.
  assert (Hlast : In (lastPhoto first (Manifest.photos m))
                     (Manifest.photos m)).
  { unfold lastPhoto. apply nth_In. rewrite Hp. cbn [List.length]. lia. }
  pose proof (length_recorded_below_last first (Manifest.photos m)
                Hlast Hnd Hrange) as Hrec.
  unfold missing.
  pose proof (filter_length
                (fun sol' => includes (map sol (Manifest.photos m)) sol')
                (map Z.of_nat
                     (seq 0 (Z.to_nat
                               (sol (lastPhoto first (Manifest.photos m)))))))
    as Hsplit.
  rewrite length_map, length_seq in Hsplit.
  unfold ArrayLength in Hlen. lia.
Qed.

Lemma disabledDates_count_witness :
  exists info,
    selectedRoverInfo behindUTC spirit5 = Normal info /\
    Z.of_nat (List.length (Info.disabledDates info)) + 5 = 8 + 1.
Proof.
  apply (disabledDates_count behindUTC spirit5 (mkPhoto 0 "2004-01-05")
           (List.tl (Manifest.photos spirit5))).
  - reflexivity.
  - vm_compute. split; [discriminate | reflexivity].
  - cbn [spirit5 manifestOf Manifest.photos map sol].
    repeat constructor; cbn [In]; lia.
  - cbn [spirit5 manifestOf Manifest.photos map sol In].
    change (sol (lastPhoto _ _)) with 8. lia.
Defined.

(** * The cache of APOD images *)

Lemma includesString_In (l : list string) (x : string) :
  includesString l x = true <-> In x l.
Proof.
  unfold includesString. rewrite existsb_exists. split.
  - intros [y [Hin Heq]]. apply String.eqb_eq in Heq. subst. exact Hin.
  - intros Hin. exists x. split; [exact Hin | apply String.eqb_refl].
Qed.

(** The first element that passes a test some element passes. *)
Lemma hd_error_filter {A : Type} (f : A -> bool) (l : list A) (a : A) :
  In a l -> f a = true ->
  exists b, hd_error (filter f l) = Some b /\ f b = true /\ In b l.
Proof.
  intros Hin Hf.
  assert (H : In a (filter f l)) by (apply filter_In; split; assumption).
  destruct (filter f l) as [ | b l'] eqn:E; [contradiction | ].
  exists b. split; [reflexivity | ].
  assert (Hb : In b (filter f l)) by (rewrite E; left; reflexivity).
  apply filter_In in Hb. tauto.
Qed.

Lemma cached_date_found {Ratio : Type} (l : list (Apod.image Ratio))
    (d : string) :
  In d (map Apod.date l) ->
  exists i,
    hd_error (filter (fun image => String.eqb (Apod.date image) d) l) = Some i
    /\ Apod.date i = d /\ In i l.
Proof.
  intros H. apply in_map_iff in H as [a [Ha Hin]].
  destruct (hd_error_filter (fun image => String.eqb (Apod.date image) d)
              l a Hin) as (b & Hb & Hf & Hinb).
  - apply String.eqb_eq. exact Ha.
  - exists b. split; [exact Hb | ]. split; [ | exact Hinb].
    apply String.eqb_eq. exact Hf.
Qed.

(** X10. Whatever [getApodImage] returns is an image of the date asked for,
    the current image or one of the cache: it never returns [undefined]
    without having sent a request. *)
Theorem getApodImage_returns_the_date {Menu Ratio Epic : Type} (d : string)
    (state : State Menu (Apod.apod Ratio) Epic)
    (v : option (Apod.image Ratio)) :
  getApodImage d state = Returns v ->
  exists i,
    v = Some i /\ Apod.date i = d /\
    (Apod.currentImg (apod state) = Some i \/
     In i (Apod.cachedImgs (apod state))).
Proof.
  unfold getApodImage.
  destruct (Apod.currentImg (apod state)) as [c | ] eqn:Ec.
  - destruct (String.eqb_spec (Apod.date c) d) as [Hd | Hd].
    + intros [= <-]. exists c. auto.
    + destruct (includesString _ d) eqn:Ei; [ | discriminate].
      apply includesString_In, cached_date_found in Ei
        as (i & Hi & Hdate & Hin).
      rewrite Hi. intros [= <-]. exists i. auto.
  - destruct (includesString _ d) eqn:Ei; [ | discriminate].
    apply includesString_In, cached_date_found in Ei
      as (i & Hi & Hdate & Hin).
    rewrite Hi. intros [= <-]. exists i. auto.
Qed.

Lemma getApodImage_returns_the_date_witness :
  exists i,
    Some (apodImage "2020-11-01" "image") = Some i /\
    Apod.date i = "2020-11-01" /\
    (Apod.currentImg (apod apodState) = Some i \/
     In i (Apod.cachedImgs (apod apodState))).
Proof.
  apply (getApodImage_returns_the_date "2020-11-01" apodState).
  reflexivity.
Defined.

(** X11. [getApodImage] asks the backend for an image exactly when neither
    the current image nor any image of the cache has the date. *)
Theorem getApodImage_requests_iff_absent {Menu Ratio Epic : Type}
    (d : string) (state : State Menu (Apod.apod Ratio) Epic) :
  getApodImage d state = Requests d <->
  ~ In d (map Apod.date (Apod.cachedImgs (apod state))) /\
  (forall c, Apod.currentImg (apod state) = Some c -> Apod.date c <> d).
Proof.
  unfold getApodImage.
  destruct (Apod.currentImg (apod state)) as [c | ].
  - destruct (String.eqb_spec (Apod.date c) d) as [Hd | Hd].
    + split; [discriminate | ]. intros [_ H]. exfalso.
      exact (H c eq_refl Hd).
    + destruct (includesString _ d) eqn:Ei.
      * split; [discriminate | ]. intros [H _]. exfalso.
        apply H, includesString_In, Ei.
      * split; [ | reflexivity]. intros _. split.
        -- intros H. apply includesString_In in H. congruence.
        -- intros c' [= <-]. exact Hd.
  - destruct (includesString _ d) eqn:Ei.
    + split; [discriminate | ]. intros [H _]. exfalso.
      apply H, includesString_In, Ei.
    + split; [ | reflexivity]. intros _. split.
      * intros H. apply includesString_In in H. congruence.
      * intros c' [=].
Qed.

Lemma getApodImage_requests_iff_absent_witness :
  getApodImage "2020-11-05" apodState = Requests "2020-11-05".
Proof.
  apply (getApodImage_requests_iff_absent "2020-11-05" apodState).
  split.
  - cbn. intros [H | []]. discriminate H.
  - intros c [= <-]. discriminate.
Defined.

(** X12. Once [cacheImage] has stored an image, its date and every date
    cached before it are answered from the store, with an image of the
    date. *)
Theorem cached_dates_are_served {Menu Ratio Epic : Type}
    (image : Apod.image Ratio) (state : State Menu (Apod.apod Ratio) Epic)
    (d : string) :
  d = Apod.date image \/ In d (map Apod.date (Apod.cachedImgs (apod state))) ->
  exists i,
    getApodImage d (cacheImage image state) = Returns (Some i) /\
    Apod.date i = d.
Proof.
  intros H. unfold getApodImage, cacheImage.
  cbn [apod Apod.currentImg Apod.cachedImgs].
  destruct (String.eqb_spec (Apod.date image) d) as [Hd | Hd].
  - exists image. split; [reflexivity | exact Hd].
  - assert (Hin : In d (map Apod.date
                          (Apod.cachedImgs (apod state) ++ [image])%list)).
    { rewrite map_app. apply in_or_app. destruct H as [-> | H]; [ | auto].
      congruence. }
    pose proof Hin as Hi. apply includesString_In in Hi. rewrite Hi.
    apply cached_date_found in Hin as (i & Hi' & Hdate & _).
    exists i. rewrite Hi'. split; [reflexivity | exact Hdate].
Qed.

Lemma cached_dates_are_served_witness :
  exists i,
    getApodImage "2020-11-01"
      (cacheImage (apodImage "2020-11-03" "image") apodState)
    = Returns (Some i) /\
    Apod.date i = "2020-11-01".
Proof.
  apply (cached_dates_are_served (apodImage "2020-11-03" "image") apodState).
  right. left. reflexivity.
Defined.

Lemma onload_date_cached {Menu Ratio Epic : Type}
    (aspectRatio : Ratio) (image : Apod.image Ratio)
    (state : State Menu (Apod.apod Ratio) Epic) :
  In (Apod.date image)
     (map Apod.date
        (Apod.cachedImgs
           (apod (getImageAspectRatio_onload aspectRatio image state)))).
Proof.
  unfold getImageAspectRatio_onload.
  destruct (includesString _ (Apod.date image)) eqn:Ei; cbn [negb].
  - apply includesString_In. exact Ei.
  - unfold cacheImage. cbn [apod Apod.cachedImgs].
    rewrite map_app. apply in_or_app. right. left. reflexivity.
Qed.

(** X13. The handler run when a picture has loaded leaves an image of its
    date in the cache, so that the date is answered from the store from then
    on; and a cache with one image to a date still has one image to a
    date. *)
Theorem onload_caches_each_date_once {Menu Ratio Epic : Type}
    (aspectRatio : Ratio) (image : Apod.image Ratio)
    (state : State Menu (Apod.apod Ratio) Epic) :
  let state' := getImageAspectRatio_onload aspectRatio image state in
  In (Apod.date image) (map Apod.date (Apod.cachedImgs (apod state'))) /\
  (exists i, getApodImage (Apod.date image) state' = Returns (Some i) /\
             Apod.date i = Apod.date image) /\
  (NoDup (map Apod.date (Apod.cachedImgs (apod state))) ->
   NoDup (map Apod.date (Apod.cachedImgs (apod state')))).
Proof.
  cbv zeta.
  pose proof (onload_date_cached aspectRatio image state) as Hin.
  split; [exact Hin | ]. split.
  - unfold getApodImage.
    destruct (Apod.currentImg _) as [c | ].
    + destruct (String.eqb_spec (Apod.date c) (Apod.date image)) as [Hd | Hd].
      * exists c. split; [reflexivity | exact Hd].
      * pose proof Hin as Hi. apply includesString_In in Hi. rewrite Hi.
        apply cached_date_found in Hin as (i & Hi' & Hdate & _).
        exists i. rewrite Hi'. split; [reflexivity | exact Hdate].
    + pose proof Hin as Hi. apply includesString_In in Hi. rewrite Hi.
      apply cached_date_found in Hin as (i & Hi' & Hdate & _).
      exists i. rewrite Hi'. split; [reflexivity | exact Hdate].
  - intros Hnd. unfold getImageAspectRatio_onload.
    destruct (includesString _ (Apod.date image)) eqn:Ei; cbn [negb];
      [exact Hnd | ].
    unfold cacheImage. cbn [apod Apod.cachedImgs Apod.date].
    rewrite map_app. cbn [map Apod.date].
    apply NoDup_app; [exact Hnd | repeat constructor; intros [] | ].
    intros d Hd [<- | []].
    apply includesString_In in Hd. congruence.
Qed.

Lemma onload_caches_each_date_once_witness :
  NoDup (map Apod.date
           (Apod.cachedImgs
              (apod (getImageAspectRatio_onload 56
                       (apodImage "2020-11-03" "image") apodState)))).
Proof.
  apply (onload_caches_each_date_once 56 (apodImage "2020-11-03" "image")
           apodState).
  cbn. repeat constructor; intros [].
Defined.

(** X19. The handler run when a picture has loaded caches an image once:
    run again for the same image, whatever the ratio, it adds nothing to the
    cache, whose images keep their number, their order and their dates, and
    the current image keeps its date. *)
Theorem onload_twice_caches_once {Menu Ratio Epic : Type}
    (aspectRatio aspectRatio' : Ratio) (image : Apod.image Ratio)
    (state : State Menu (Apod.apod Ratio) Epic) :
  let once := getImageAspectRatio_onload aspectRatio image state in
  let twice := getImageAspectRatio_onload aspectRatio' image once in
  map Apod.date (Apod.cachedImgs (apod twice))
  = map Apod.date (Apod.cachedImgs (apod once)) /\
  option_map Apod.date (Apod.currentImg (apod twice))
  = option_map Apod.date (Apod.currentImg (apod once)).
Proof.
  cbv zeta.
  pose proof (onload_date_cached aspectRatio image state) as Hin.
  apply includesString_In in Hin.
  assert (E : getImageAspectRatio_onload aspectRatio' image
                (getImageAspectRatio_onload aspectRatio image state)
              = getImageAspectRatio_onload aspectRatio image state).
  { unfold getImageAspectRatio_onload at 1. rewrite Hin. reflexivity. }
  rewrite E. split; reflexivity.
Qed.

(** The picture of 2020-11-03, loaded twice. *)
Lemma onload_twice_caches_once_witness :
  map Apod.date
      (Apod.cachedImgs
         (apod (getImageAspectRatio_onload 75 (apodImage "2020-11-03" "image")
                  (getImageAspectRatio_onload 50
                     (apodImage "2020-11-03" "image") apodState))))
  = ["2020-11-01"; "2020-11-03"].
Proof.
  rewrite (proj1 (onload_twice_caches_once 50 75
                    (apodImage "2020-11-03" "image") apodState)).
  reflexivity.
Defined.

(** * The disabled dates of APOD *)

(** X14. [getDisabledDates] only adds to the disabled dates, and what it
    adds are the dates of the entries of the answer that are not images, all
    of them when [checkedUntil] was not today.  [checkedUntil] moves to
    today only when a date is added: otherwise the store stays as it was.
    The cache is never touched. *)
Theorem getDisabledDates_grows {Menu Ratio Epic : Type} (env : Env)
    (state : State Menu (Apod.apod Ratio) Epic)
    (images : list (Apod.image Ratio)) :
  let state' := getDisabledDates env state images in
  let today := dateToStringConverter env (Date_now env) in
  exists added,
    Apod.disabledDates (apod state')
    = (Apod.disabledDates (apod state) ++ added)%list /\
    (forall d, In d added ->
               exists i, In i images /\ Apod.media_type i <> "image" /\
                         Apod.date i = d) /\
    (Apod.checkedUntil (apod state) <> today ->
     forall i, In i images -> Apod.media_type i <> "image" ->
               In (Apod.date i) added) /\
    (added = [] -> state' = state) /\
    (added <> [] -> Apod.checkedUntil (apod state') = today) /\
    Apod.cachedImgs (apod state') = Apod.cachedImgs (apod state) /\
    Apod.currentImg (apod state') = Apod.currentImg (apod state).
Proof.
  cbv zeta. unfold getDisabledDates, apodDateToString.
  set (today := dateToStringConverter env (Date_now env)).
  set (new := map Apod.date (filter _ images)).
  assert (Hnew : forall d, In d new <->
                           exists i, In i images /\
                                     Apod.media_type i <> "image" /\
                                     Apod.date i = d).
  { intros d. unfold new. rewrite in_map_iff. split.
    - intros [i [Hd Hi]]. apply filter_In in Hi as [Hi Hm].
      exists i. split; [exact Hi | ]. split; [ | exact Hd].
      destruct (String.eqb_spec (Apod.media_type i) "image");
        [discriminate | assumption].
    - intros [i [Hi [Hm Hd]]]. exists i. split; [exact Hd | ].
      apply filter_In. split; [exact Hi | ].
      destruct (String.eqb_spec (Apod.media_type i) "image");
        [contradiction | reflexivity]. }
  destruct (String.eqb_spec (Apod.checkedUntil (apod state)) today)
    as [Heq | Hne]; cbn [negb].
  - exists []. rewrite app_nil_r.
    repeat split; try reflexivity; contradiction.
  - destruct new as [ | d0 new'] eqn:En; cbn [List.length Nat.ltb Nat.leb].
    + exists []. rewrite app_nil_r.
      repeat split; try reflexivity; try contradiction.
      intros _ i Hi Hm. apply (Hnew (Apod.date i)). eauto.
    + exists (d0 :: new'). cbn [apod Apod.disabledDates Apod.checkedUntil
                                 Apod.cachedImgs Apod.currentImg].
      repeat split; try reflexivity; try discriminate.
      * intros d Hd. apply Hnew. exact Hd.
      * intros _ i Hi Hm. apply (Hnew (Apod.date i)). eauto.
Qed.

Lemma getDisabledDates_grows_witness :
  Apod.disabledDates
    (apod (getDisabledDates behindUTC apodState apodRange))
  = ["2020-10-30"; "2020-11-02"] /\
  Apod.checkedUntil (apod (getDisabledDates behindUTC apodState apodRange))
  = "2020-11-02".
Proof.
  destruct (getDisabledDates_grows behindUTC apodState apodRange)
    as (added & Hdates & _ & Hall & _ & Htoday & _).
  assert (Hin : In "2020-11-02" added).
  { apply (Hall ltac:(vm_compute; discriminate)
                (apodImage "2020-11-02" "video")).
    - right. left. reflexivity.
    - discriminate. }
  split.
  - vm_compute. reflexivity.
  - rewrite Htoday; [vm_compute; reflexivity | ].
    intros E. rewrite E in Hin. exact Hin.
Defined.

(** X15. In a zone a whole number of hours, from 0 to 23, behind UTC, the
    Dates that [getApodDisabledDates] hands to the date picker are the
    listed days: each converts back to the string it was made of, for dates
    of the years 1000 to 9999. *)
Theorem getApodDisabledDates_round_trip {Ratio : Type} (env : Env)
    (apod : Apod.apod Ratio) :
  0 <= timeZoneOffset env <= 23 ->
  Forall (fun s => exists y m d,
                     s = dateString y m d /\ validDate y m d /\ 1000 <= y)
         (Apod.disabledDates apod) ->
  map (dateToStringConverter env) (getApodDisabledDates env apod)
  = Apod.disabledDates apod.
Proof.
  intros Htz Hall. unfold getApodDisabledDates.
  induction Hall as [ | s l (y & m & d & -> & Hv & Hy) _ IH];
    [reflexivity | ].
  cbn [map]. rewrite IH. f_equal.
  rewrite apodStringToDate_dateString by assumption.
  apply dateToStringConverter_local; (assumption || lia).
Qed.

Lemma getApodDisabledDates_round_trip_witness :
  map (dateToStringConverter behindUTC)
      (getApodDisabledDates behindUTC (apod apodState))
  = ["2020-10-30"].
Proof.
  apply (getApodDisabledDates_round_trip behindUTC (apod apodState)).
  - vm_compute. split; discriminate.
  - constructor; [ | constructor]. exists 2020, 10, 30.
    split; [reflexivity | ]. split; [ | lia].
    vm_compute. repeat split; discriminate.
Defined.

(** X20. Once the handler of [getDisabledDates] has added a date, running it
    again on the same day, whatever the backend answers, changes nothing:
    [checkedUntil] is today and no request is made. *)
Theorem getDisabledDates_once_a_day {Menu Ratio Epic : Type} (env : Env)
    (state : State Menu (Apod.apod Ratio) Epic)
    (images images' : list (Apod.image Ratio)) :
  Apod.disabledDates (apod (getDisabledDates env state images))
  <> Apod.disabledDates (apod state) ->
  getDisabledDates env (getDisabledDates env state images) images'
  = getDisabledDates env state images.
Proof.
  intros Hchanged.
  assert (Htoday : Apod.checkedUntil (apod (getDisabledDates env state images))
                   = apodDateToString (Date_now env)
                                      (dateToStringConverter env)).
  { revert Hchanged. unfold getDisabledDates.
    destruct (String.eqb _ _); cbn [negb]; [congruence | ].
    destruct (0 <? _)%nat; [reflexivity | congruence]. }
  unfold getDisabledDates at 1. rewrite Htoday, String.eqb_refl.
  reflexivity.
Qed.

Lemma getDisabledDates_once_a_day_witness :
  getDisabledDates behindUTC (getDisabledDates behindUTC apodState apodRange)
                   apodRange
  = getDisabledDates behindUTC apodState apodRange.
Proof.
  apply (getDisabledDates_once_a_day behindUTC apodState apodRange apodRange).
  vm_compute. discriminate.
Defined.

(** * The EPIC images *)

(** X16. The callback of [getEpicImages] throws exactly when the backend
    lists no image, and what it throws is the TypeError of reading the date
    of the missing first image. *)
Theorem getEpicImages_throws_iff_empty {Menu Apod : Type}
    (state : State Menu Apod Epic.epic) (images : list EpicApi.image)
    (e : Exception) :
  getEpicImages state images = Throw e <-> images = [] /\ e = TypeError.
Proof.
  unfold getEpicImages. destruct images as [ | first rest]; cbn [item0 bind].
  - split.
    + intros [= <-]. split; reflexivity.
    + intros [_ ->]. reflexivity.
  - split; [discriminate | intros [H _]; discriminate H].
Qed.

Lemma getEpicImages_throws_iff_empty_witness :
  getEpicImages epicState [] = Throw TypeError.
Proof.
  apply (getEpicImages_throws_iff_empty epicState [] TypeError).
  split; reflexivity.
Defined.

(** X17. When the date of the first image listed begins with a date
    YYYY-MM-DD, that date becomes the date of the EPIC branch; the images
    keep their number, order and dates, and the address of each is built
    from its name and the day of the first image, in the order year, month,
    day.  The other branches of the store stay as they were. *)
Theorem getEpicImages_of_day {Menu Apod : Type}
    (state : State Menu Apod Epic.epic) (first : EpicApi.image)
    (rest : list EpicApi.image) (y m d : Z) (time : string) :
  EpicApi.date first = (dateString y m d ++ time)%string ->
  exists state',
    getEpicImages state (first :: rest) = Normal state' /\
    Epic.date (epic state') = dateString y m d /\
    map EpicImage.date (Epic.images (epic state'))
    = map EpicApi.date (first :: rest) /\
    map EpicImage.url (Epic.images (epic state'))
    = map (fun image => epicUrl y m d (EpicApi.image_ image)) (first :: rest) /\
    menu state' = menu state /\ apod state' = apod state /\
    rovers state' = rovers state.
Proof.
  intros Hd. unfold getEpicImages. cbn [item0 bind]. rewrite Hd.
  assert (Ey : js_substring (dateString y m d ++ time) 0 4 = pad4 y)
    by reflexivity.
  assert (Em : js_substring (dateString y m d ++ time) 5 7 = pad2 m)
    by reflexivity.
  assert (Ed : js_substring (dateString y m d ++ time) 8 10 = pad2 d)
    by (destruct time; reflexivity).
  rewrite Ey, Em, Ed. eexists. split; [reflexivity | ].
  cbn [epic menu apod rovers Epic.date Epic.images].
  split; [reflexivity | ].
  rewrite !map_map. cbn [EpicImage.date EpicImage.url].
  repeat split; reflexivity.
Qed.

Lemma getEpicImages_of_day_witness :
  exists state',
    getEpicImages epicState epicList = Normal state' /\
    Epic.date (epic state') = "2020-11-02" /\
    map EpicImage.url (Epic.images (epic state'))
    = ["https://epic.gsfc.nasa.gov/archive/natural/2020/11/02/png/epic_1b_20201102003633.png";
       "https://epic.gsfc.nasa.gov/archive/natural/2020/11/02/png/epic_1b_20201102022436.png"].
Proof.
  destruct (getEpicImages_of_day epicState
              (EpicApi.mk "2020-11-02 00:31:45" "epic_1b_20201102003633")
              [EpicApi.mk "2020-11-02 02:19:48" "epic_1b_20201102022436"]
              2020 11 2 " 00:31:45" eq_refl)
    as (state' & Hs & Hdate & _ & Hurl & _).
  exists state'. split; [exact Hs | ]. split; [exact Hdate | exact Hurl].
Defined.

(** * The photos of a rover *)

Lemma length_firstn_le {A : Type} (n : nat) (l : list A) :
  (List.length (firstn n l) <= n)%nat.
Proof. rewrite length_firstn. apply Nat.le_min_l. Qed.

(** X18. Whatever order the random sort leaves the images in, the callback
    of [getRoverPhotos] shows at most 25 of them, each the source of a photo
    of the answer taken by one of the four cameras, and all of those when
    there are no more than 25.  The date shown becomes the date requested;
    the requested date, the rover and its manifest data stay. *)
Theorem getRoverPhotos_shows_the_cameras {Menu Apod Epic : Type}
    (shuffle : list string -> list string)
    (state : State Menu Apod Epic) (photos : list RoverImage.photo) :
  (forall l, Permutation l (shuffle l)) ->
  let state' := getRoverPhotos shuffle state photos in
  let images := Rovers.images (Rovers.photos (rovers state')) in
  (List.length images <= 25)%nat /\
  (forall src, In src images ->
     exists photo,
       In photo photos /\ RoverImage.img_src photo = src /\
       In (RoverImage.name (RoverImage.camera_ photo)) cameras) /\
  ((List.length (shownSources photos) <= 25)%nat ->
   Permutation (shownSources photos) images) /\
  Rovers.date (Rovers.photos (rovers state'))
  = Rovers.reqDate (Rovers.photos (rovers state)) /\
  Rovers.reqDate (Rovers.photos (rovers state'))
  = Rovers.reqDate (Rovers.photos (rovers state)) /\
  Rovers.selectedRover (rovers state') = Rovers.selectedRover (rovers state) /\
  Rovers.selectedRoverInfo (rovers state')
  = Rovers.selectedRoverInfo (rovers state).
Proof.
  intros Hperm. cbv zeta. unfold getRoverPhotos.
  cbn [rovers Rovers.photos Rovers.images Rovers.date Rovers.reqDate
       Rovers.selectedRover Rovers.selectedRoverInfo].
  fold (shownSources photos).
  split; [apply length_firstn_le | ].
  split.
  - intros src Hsrc.
    assert (Hall : In src (shuffle (shownSources photos))).
    { rewrite <- (firstn_skipn 25 (shuffle (shownSources photos))).
      apply in_or_app. left. exact Hsrc. }
    clear Hsrc. rename Hall into Hsrc.
    apply (Permutation_in _ (Permutation_sym (Hperm _))) in Hsrc.
    unfold shownSources in Hsrc.
    apply in_map_iff in Hsrc as [photo [Hp Hin]].
    apply filter_In in Hin as [Hin Hcam].
    exists photo. split; [exact Hin | ]. split; [exact Hp | ].
    apply includesString_In. exact Hcam.
  - split; [ | repeat split; reflexivity].
    intros Hlen. rewrite firstn_all2; [apply Hperm | ].
    rewrite <- (Permutation_length (Hperm _)). exact Hlen.
Qed.

Lemma getRoverPhotos_shows_the_cameras_witness :
  Permutation
    ["https://mars.nasa.gov/1.jpg"; "https://mars.nasa.gov/3.jpg";
     "https://mars.nasa.gov/4.jpg"]
    (Rovers.images
       (Rovers.photos
          (rovers (getRoverPhotos (@rev string) requestingState roverList)))).
Proof.
  apply (getRoverPhotos_shows_the_cameras (@rev string) requestingState
           roverList).
  - intros l. apply Permutation_rev.
  - vm_compute. repeat constructor.
Defined.

(** * The dates of a rover on the calendar *)

(** ** Dates moved on by days *)

(** The time value of a whole hour of a day of the calendar, moved on by up
    to 93 million days, is in the range of Date. *)
Lemma local_hour_in_range (env : Env) (y m d h n : Z) :
  validDate y m d -> 0 <= h <= 23 -> -24 <= timeZoneOffset env <= 24 ->
  0 <= n <= 93000000 ->
  Z.abs (UTC env (MakeDate (MakeDay y (m - 1) d + n) (MakeTime h 0 0 0)))
  <= maxTime.
Proof.
  intros Hv Hh Htz Hn. pose proof (dayOfYear_range y m d Hv) as Hr.
  destruct Hv as (Hy & Hm & Hd).
  unfold UTC, MakeDate, MakeDay, MakeTime.
  replace ((m - 1) / 12) with 0 by lia.
  replace ((m - 1) mod 12) with (m - 1) by lia.
  rewrite Z.add_0_r.
  pose proof (DaysInYear_cases y) as Hdiy.
  revert Hr. generalize (DaysBeforeMonth y (m - 1)). intros b Hr.
  unfold DayFromYear, maxTime, msPerDay, msPerHour, msPerMinute, msPerSecond.
  lia.
Qed.

(** Moving a Date on by [n] days moves it to the same time of day [n] days
    later, as long as that is in the range of Date. *)
Lemma addDays_MakeDate (env : Env) (day time n : Z) :
  Z.abs (UTC env (MakeDate (day + n) time)) <= maxTime ->
  addDays (Date_at (UTC env (MakeDate day time))) n
  = Date_at (UTC env (MakeDate (day + n) time)).
Proof.
  intros Hr.
  assert (E : UTC env (MakeDate (day + n) time)
              = UTC env (MakeDate day time) + n * msPerDay)
    by (unfold UTC, MakeDate; ring).
  rewrite E in *. apply addDays_in_range. exact Hr.
Qed.

(** Ahead of UTC the first of a month gets no Date. *)
Lemma apodStringToDate_first_of_month (env : Env) (y m : Z) :
  timeZoneOffset env < 0 ->
  apodStringToDate env (dateString y m 1) = Invalid_Date.
Proof.
  intros Htz. unfold apodStringToDate.
  change (String.eqb (dateString y m 1) "") with false. cbn [negb].
  rewrite getDateWithTimeString_first_of_month by exact Htz.
  unfold Date_of_string, Date_parse.
  rewrite dateTimeFields_day_00. reflexivity.
Qed.

Lemma addDays_Invalid_Date (n : Z) : addDays Invalid_Date n = Invalid_Date.
Proof. reflexivity. Qed.

(** The entries of [opportunity6] carry ascending dates of the calendar. *)
Lemma opportunity6_ascendingEarthDates :
  ascendingEarthDates (Manifest.photos opportunity6).
Proof.
  unfold ascendingEarthDates, opportunity6, manifestOf. cbn [Manifest.photos].
  intros i j p q Hij Hi Hj.
  do 7 (try destruct i as [ | i]); cbn [nth_error] in Hi;
    try discriminate Hi; injection Hi as <-;
    do 7 (try destruct j as [ | j]); cbn [nth_error] in Hj;
    try discriminate Hj; injection Hj as <-;
    try (exfalso; lia); cbn [earth_date];
    match goal with
    | |- exists y1 m1 d1 y2 m2 d2, ?s1 = _ /\ _ /\ ?s2 = _ /\ _ /\ _ =>
        let r1 := eval vm_compute in (dateTimeFields (s1 ++ "T00:00:00")) in
        let r2 := eval vm_compute in (dateTimeFields (s2 ++ "T00:00:00")) in
        match r1 with
        | Some (?a, ?b, ?c, _, _, _) =>
            match r2 with
            | Some (?e, ?f, ?g, _, _, _) => exists a, b, c, e, f, g
            end
        end
    end;
    (split; [reflexivity | ]);
    (split; [vm_compute; repeat split; discriminate | ]);
    (split; [reflexivity | ]);
    (split; [vm_compute; repeat split; discriminate | ]);
    unfold calendar_le; lia.
Qed.

(** ** The one missing sol: C1 *)

(** With one sol [k] missing, and [minDate] a Date at a whole hour of a day
    of the calendar, [disabledDates] holds one Date, of the day that lies
    [dayOffset k] days after that of [minDate]. *)
Lemma single_missing_sol_on_the_calendar (env : Env)
    (m : Manifest.photo_manifest) (first : Photo) (rest : list Photo)
    (N k : Z) (y mo d h y' mo' d' : Z) :
  Manifest.photos m = first :: rest ->
  sol (lastPhoto first (Manifest.photos m)) = N ->
  0 < k < N ->
  N < 2 ^ 32 ->
  (forall s, 0 <= s <= N -> s <> k -> In s (map sol (Manifest.photos m))) ->
  ~ In k (map sol (Manifest.photos m)) ->
  -24 <= timeZoneOffset env <= 24 -> 0 <= h <= 23 ->
  earthDate env first
  = Date_at (UTC env (MakeDate (MakeDay y (mo - 1) d) (MakeTime h 0 0 0))) ->
  validDate y mo d -> 1000 <= y ->
  validDate y' mo' d' ->
  dayNumber y' mo' d' = dayNumber y mo d + dayOffset k ->
  exists info disabled,
    selectedRoverInfo env m = Normal info /\
    dateToStringConverter env (Info.minDate info) = dateString y mo d /\
    Info.disabledDates info = [disabled] /\
    dateToStringConverter env disabled = dateString y' mo' d'.
Proof.
  intros Hp HN Hk H32 Hall Hnot Htz Hh Hmin Hv Hy Hv' Hday.
  unfold dayNumber in Hday.
  assert (Hyy : y <= y').
  { destruct (Z.le_gt_cases y y') as [H | H]; [exact H | exfalso].
    pose proof (MakeDay_lt y' mo' d' y mo d Hv' Hv (or_introl H)).
    unfold dayOffset in Hday. lia. }
  exists (infoOf env m first).
  exists (Date_at (UTC env (MakeDate (MakeDay y' (mo' - 1) d')
                                     (MakeTime h 0 0 0)))).
  split.
  { apply (selectedRoverInfo_Normal env m first rest Hp).
    rewrite HN. unfold ArrayLength. lia. }
  unfold infoOf. cbn [Info.disabledDates Info.minDate]. rewrite Hmin.
  split; [apply dateToStringConverter_local; assumption | ].
  split; [ | apply dateToStringConverter_local; (assumption || lia)].
  unfold missing. rewrite HN.
  rewrite (filter_indices_single _ _ k).
  - cbn [map]. rewrite Hday. f_equal.
    apply addDays_MakeDate. rewrite <- Hday.
    rewrite <- (Z.add_0_r (MakeDay y' (mo' - 1) d')).
    apply local_hour_in_range; (assumption || lia).
  - lia.
  - apply negb_true_iff.
    destruct (includes (map sol (Manifest.photos m)) k) eqn:E; [ | reflexivity].
    apply includes_In in E. contradiction.
  - intros s Hs Hne. apply negb_false_iff. apply includes_In.
    apply Hall; lia.
Qed.

(** C1. In a zone a whole number of hours, from 0 to 23, behind UTC: when
    the manifest records every sol from 0 to the last one, [N], except one
    sol [k] strictly between them, and its first entry carries a date of the
    calendar (of the years 1000 to 9999), [minDate] is a Date of that day
    and [disabledDates] holds one Date, which falls on the day of the
    calendar that lies [k + floor(k/37) + floor(k/1493)] days after it. *)
Theorem C1_single_missing_sol (env : Env) (m : Manifest.photo_manifest)
    (first : Photo) (rest : list Photo) (N k : Z) (y mo d y' mo' d' : Z) :
  Manifest.photos m = first :: rest ->
  sol (lastPhoto first (Manifest.photos m)) = N ->
  0 < k < N ->
  N < 2 ^ 32 ->
  (forall s, 0 <= s <= N -> s <> k -> In s (map sol (Manifest.photos m))) ->
  ~ In k (map sol (Manifest.photos m)) ->
  0 <= timeZoneOffset env <= 23 ->
  earth_date first = dateString y mo d ->
  validDate y mo d -> 1000 <= y ->
  validDate y' mo' d' ->
  dayNumber y' mo' d' = dayNumber y mo d + (k + k / 37 + k / 1493) ->
  exists info disabled,
    selectedRoverInfo env m = Normal info /\
    dateToStringConverter env (Info.minDate info) = dateString y mo d /\
    Info.disabledDates info = [disabled] /\
    dateToStringConverter env disabled = dateString y' mo' d'.
Proof.
  intros Hp HN Hk H32 Hall Hnot Htz Hdate Hv Hy Hv' Hday.
  apply (single_missing_sol_on_the_calendar env m first rest N k y mo d
           (timeZoneOffset env) y' mo' d');
    try assumption; try lia.
  unfold earthDate. rewrite Hdate.
  apply apodStringToDate_dateString; assumption.
Qed.

(** Sols 0 to 6 with sol 2 missing, from 1 January 2020 on, five hours
    behind UTC: the one disabled date is 3 January. *)
Lemma C1_single_missing_sol_witness :
  exists info disabled,
    selectedRoverInfo behindUTC opportunity6 = Normal info /\
    dateToStringConverter behindUTC (Info.minDate info) = "2020-01-01" /\
    Info.disabledDates info = [disabled] /\
    dateToStringConverter behindUTC disabled = "2020-01-03".
Proof.
  apply (C1_single_missing_sol behindUTC opportunity6
           (mkPhoto 0 "2020-01-01")
           (List.tl (Manifest.photos opportunity6)) 6 2 2020 1 1 2020 1 3).
  - reflexivity.
  - reflexivity.
  - lia.
  - reflexivity.
  - intros s Hs Hne. cbn [opportunity6 manifestOf Manifest.photos map sol In].
    lia.
  - cbn [opportunity6 manifestOf Manifest.photos map sol In]. lia.
  - vm_compute. split; discriminate.
  - reflexivity.
  - vm_compute. repeat split; discriminate.
  - lia.
  - vm_compute. repeat split; discriminate.
  - reflexivity.
Defined.

(** X23. Ahead of UTC by a whole number of hours, from 1 to 23, with one
    sol [k] missing and the first entry dated from the second of a month on
    (of the years 1000 to 9999): [minDate] is a Date of the day before the
    earth date of the first entry, and [disabledDates] holds one Date, of
    the day that lies [k + floor(k/37) + floor(k/1493)] days after the day
    of [minDate]. *)
Theorem single_missing_sol_ahead_of_UTC (env : Env)
    (m : Manifest.photo_manifest) (first : Photo) (rest : list Photo)
    (N k : Z) (y mo d y' mo' d' : Z) :
  Manifest.photos m = first :: rest ->
  sol (lastPhoto first (Manifest.photos m)) = N ->
  0 < k < N ->
  N < 2 ^ 32 ->
  (forall s, 0 <= s <= N -> s <> k -> In s (map sol (Manifest.photos m))) ->
  ~ In k (map sol (Manifest.photos m)) ->
  -23 <= timeZoneOffset env <= -1 ->
  earth_date first = dateString y mo d ->
  validDate y mo d -> 2 <= d -> 1000 <= y ->
  validDate y' mo' d' ->
  dayNumber y' mo' d' = dayNumber y mo (d - 1) + (k + k / 37 + k / 1493) ->
  exists info disabled,
    selectedRoverInfo env m = Normal info /\
    dateToStringConverter env (Info.minDate info) = dateString y mo (d - 1) /\
    Info.disabledDates info = [disabled] /\
    dateToStringConverter env disabled = dateString y' mo' d'.
Proof.
  intros Hp HN Hk H32 Hall Hnot Htz Hdate Hv Hd Hy Hv' Hday.
  apply (single_missing_sol_on_the_calendar env m first rest N k y mo (d - 1)
           (24 + timeZoneOffset env) y' mo' d');
    try assumption; try lia.
  - unfold earthDate. rewrite Hdate.
    apply apodStringToDate_ahead_of_UTC; assumption.
  - destruct Hv as (? & ? & ?). repeat split; lia.
Qed.

(** [opportunityLate], whose entries begin on 2 January 2020, an hour ahead
    of UTC: [minDate] is of 1 January, and the date disabled for sol 3 of
    4 January. *)
Lemma single_missing_sol_ahead_of_UTC_witness :
  exists info disabled,
    selectedRoverInfo aheadOfUTC opportunityLate = Normal info /\
    dateToStringConverter aheadOfUTC (Info.minDate info) = "2020-01-01" /\
    Info.disabledDates info = [disabled] /\
    dateToStringConverter aheadOfUTC disabled = "2020-01-04".
Proof.
  apply (single_missing_sol_ahead_of_UTC aheadOfUTC opportunityLate
           (mkPhoto 0 "2020-01-02")
           (List.tl (Manifest.photos opportunityLate)) 4 3 2020 1 2 2020 1 4).
  - reflexivity.
  - reflexivity.
  - lia.
  - reflexivity.
  - intros s Hs Hne.
    cbn [opportunityLate manifestOf Manifest.photos map sol In]. lia.
  - cbn [opportunityLate manifestOf Manifest.photos map sol In]. lia.
  - vm_compute. split; discriminate.
  - reflexivity.
  - vm_compute. repeat split; discriminate.
  - lia.
  - lia.
  - vm_compute. repeat split; discriminate.
  - reflexivity.
Defined.

(** ** The order of the date range: C5 *)

(** C5 fails east of Greenwich, by the defect of C8.  Ahead of UTC, on a
    manifest whose first entry is dated the first of a month, [minDate] is
    an Invalid Date, which is neither before nor after any Date: so
    [minDate <= startDate] does not hold, however the earth dates
    ascend. *)
Theorem C5_minDate_invalid_ahead_of_UTC (env : Env)
    (m : Manifest.photo_manifest) (first : Photo) (rest : list Photo)
    (y mo : Z) :
  Manifest.photos m = first :: rest ->
  ArrayLength (sol (lastPhoto first (Manifest.photos m))) ->
  timeZoneOffset env < 0 ->
  earth_date first = dateString y mo 1 ->
  exists info,
    selectedRoverInfo env m = Normal info /\
    Info.minDate info = Invalid_Date /\
    ~ Date_le (Info.minDate info) (Info.startDate info).
Proof.
  intros Hp Hlen Htz Hdate.
  exists (infoOf env m first).
  split; [apply (selectedRoverInfo_Normal env m first rest Hp Hlen) | ].
  unfold infoOf. cbn [Info.minDate Info.startDate].
  unfold earthDate at 1 2. rewrite Hdate.
  rewrite (apodStringToDate_first_of_month env y mo Htz).
  split; [reflexivity | exact (fun H => H)].
Qed.

(** [opportunity6], whose dates ascend from 1 January 2020, an hour ahead of
    UTC. *)
Lemma C5_minDate_invalid_ahead_of_UTC_witness :
  ascendingEarthDates (Manifest.photos opportunity6) /\
  exists info,
    selectedRoverInfo aheadOfUTC opportunity6 = Normal info /\
    Info.minDate info = Invalid_Date /\
    ~ Date_le (Info.minDate info) (Info.startDate info).
Proof.
  split; [exact opportunity6_ascendingEarthDates | ].
  apply (C5_minDate_invalid_ahead_of_UTC aheadOfUTC opportunity6
           (mkPhoto 0 "2020-01-01")
           (List.tl (Manifest.photos opportunity6)) 2020 1).
  - reflexivity.
  - vm_compute. split; [discriminate | reflexivity].
  - reflexivity.
  - reflexivity.
Defined.

(** X21. In a zone a whole number of hours, from 0 to 23, behind UTC, a
    manifest whose entries carry ascending dates of the calendar gets
    [minDate <= startDate <= maxDate <= completedDate], all four valid
    Dates, and [startDate] is [maxDate]. *)
Theorem date_range_ordered_behind_UTC (env : Env)
    (m : Manifest.photo_manifest) (first : Photo) (rest : list Photo) :
  Manifest.photos m = first :: rest ->
  ArrayLength (sol (lastPhoto first (Manifest.photos m))) ->
  0 <= timeZoneOffset env <= 23 ->
  ascendingEarthDates (Manifest.photos m) ->
  exists info,
    selectedRoverInfo env m = Normal info /\
    Date_le (Info.minDate info) (Info.startDate info) /\
    Date_le (Info.startDate info) (Info.maxDate info) /\
    Date_le (Info.maxDate info) (Info.completedDate info) /\
    Info.startDate info = Info.maxDate info.
Proof.
  intros Hp Hlen Htz Hasc.
  apply (date_range_of_ascendingDates env m first rest Hp Hlen).
  apply ascendingEarthDates_ascendingDates; assumption.
Qed.

(** Six entries for Opportunity, five hours behind UTC: the boundary is the
    entry at index 1. *)
Lemma date_range_ordered_behind_UTC_witness :
  exists info,
    selectedRoverInfo behindUTC opportunity6 = Normal info /\
    Date_le (Info.minDate info) (Info.startDate info) /\
    Date_le (Info.startDate info) (Info.maxDate info) /\
    Date_le (Info.maxDate info) (Info.completedDate info) /\
    Info.startDate info = Info.maxDate info.
Proof.
  apply (date_range_ordered_behind_UTC behindUTC opportunity6
           (mkPhoto 0 "2020-01-01")
           (List.tl (Manifest.photos opportunity6))).
  - reflexivity.
  - vm_compute. split; [discriminate | reflexivity].
  - vm_compute. split; discriminate.
  - exact opportunity6_ascendingEarthDates.
Defined.

(** ** The order of the disabled dates: C7 *)

(** C7 fails east of Greenwich, by the defect of C8.  Ahead of UTC, on a
    manifest whose first entry is dated the first of a month, the date
    computed for every sol is an Invalid Date: [disabledDates] holds nothing
    else, and of two missing sols neither gets the earlier date. *)
Theorem C7_disabled_dates_invalid_ahead_of_UTC (env : Env)
    (m : Manifest.photo_manifest) (first : Photo) (rest : list Photo)
    (y mo : Z) :
  Manifest.photos m = first :: rest ->
  ArrayLength (sol (lastPhoto first (Manifest.photos m))) ->
  timeZoneOffset env < 0 ->
  earth_date first = dateString y mo 1 ->
  exists info missingSols',
    selectedRoverInfo env m = Normal info /\
    missingSols (Manifest.photos m) = Normal missingSols' /\
    Info.disabledDates info = map (fun _ => Invalid_Date) missingSols' /\
    (forall s, disabledDate env (Manifest.photos m) s = Normal Invalid_Date) /\
    forall s1 s2 d1 d2,
      disabledDate env (Manifest.photos m) s1 = Normal d1 ->
      disabledDate env (Manifest.photos m) s2 = Normal d2 ->
      ~ Date_lt d1 d2.
Proof.
  intros Hp Hlen Htz Hdate.
  pose proof (selectedRoverInfo_Normal env m first rest Hp Hlen) as Hinfo.
  assert (Hmin : earthDate env first = Invalid_Date).
  { unfold earthDate. rewrite Hdate.
    apply apodStringToDate_first_of_month. exact Htz. }
  exists (infoOf env m first), (missing first (Manifest.photos m)).
  split; [exact Hinfo | ].
  split; [rewrite Hp in *; apply missingSols_Normal; exact Hlen | ].
  split.
  - unfold infoOf. cbn [Info.disabledDates]. rewrite Hmin. reflexivity.
  - split.
    + intros s. rewrite Hp, disabledDate_addDays, Hmin. reflexivity.
    + intros s1 s2 d1 d2. rewrite Hp, !disabledDate_addDays, Hmin.
      intros [= <-] _. exact (fun H => H).
Qed.

(** [opportunityNewYear], with sols 1 and 2 missing, an hour ahead of UTC. *)
Lemma C7_disabled_dates_invalid_ahead_of_UTC_witness :
  exists info,
    selectedRoverInfo aheadOfUTC opportunityNewYear = Normal info /\
    missingSols (Manifest.photos opportunityNewYear) = Normal [1; 2] /\
    Info.disabledDates info = [Invalid_Date; Invalid_Date] /\
    forall d1 d2,
      disabledDate aheadOfUTC (Manifest.photos opportunityNewYear) 1
      = Normal d1 ->
      disabledDate aheadOfUTC (Manifest.photos opportunityNewYear) 2
      = Normal d2 ->
      ~ Date_lt d1 d2.
Proof.
  destruct (C7_disabled_dates_invalid_ahead_of_UTC aheadOfUTC
              opportunityNewYear (mkPhoto 0 "2020-01-01")
              [mkPhoto 3 "2020-01-04"] 2020 1)
    as (info & ms & Hinfo & Hms & Hdis & _ & Hlt).
  - reflexivity.
  - vm_compute. split; [discriminate | reflexivity].
  - reflexivity.
  - reflexivity.
  - exists info. split; [exact Hinfo | ].
    assert (E : ms = [1; 2]) by (vm_compute in Hms; congruence).
    rewrite E in Hdis.
    split; [reflexivity | ]. split; [exact Hdis | ].
    exact (Hlt 1 2).
Defined.

(** X22. In a zone a whole number of hours, from 0 to 23, behind UTC, on a
    manifest whose first entry carries a date of the calendar and whose
    last sol is at most 90 000 000, the date computed for a missing sol
    grows strictly with the sol: of two missing sols [s1 < s2] both get a
    valid Date, and the first the strictly earlier one. *)
Theorem disabled_dates_increasing_behind_UTC (env : Env)
    (m : Manifest.photo_manifest) (first : Photo) (rest : list Photo)
    (y mo d : Z) :
  Manifest.photos m = first :: rest ->
  0 <= sol (lastPhoto first (Manifest.photos m)) <= 90000000 ->
  0 <= timeZoneOffset env <= 23 ->
  earth_date first = dateString y mo d ->
  validDate y mo d ->
  exists info missingSols',
    selectedRoverInfo env m = Normal info /\
    missingSols (Manifest.photos m) = Normal missingSols' /\
    mapM (disabledDate env (Manifest.photos m)) missingSols'
    = Normal (Info.disabledDates info) /\
    forall s1 s2,
      In s1 missingSols' -> In s2 missingSols' -> s1 < s2 ->
      exists d1 d2,
        disabledDate env (Manifest.photos m) s1 = Normal d1 /\
        disabledDate env (Manifest.photos m) s2 = Normal d2 /\
        Date_lt d1 d2.
Proof.
  intros Hp Hsol Htz Hdate Hv.
  assert (Hlen : ArrayLength (sol (lastPhoto first (Manifest.photos m))))
    by (unfold ArrayLength; lia).
  pose proof (selectedRoverInfo_Normal env m first rest Hp Hlen) as Hinfo.
  exists (infoOf env m first), (missing first (Manifest.photos m)).
  split; [exact Hinfo | ].
  split; [rewrite Hp in *; apply missingSols_Normal; exact Hlen | ].
  split.
  { unfold infoOf. cbn [Info.disabledDates]. rewrite Hp. apply mapM_Normal.
    intros; apply disabledDate_addDays. }
  intros s1 s2 Hs1 Hs2 Hlt.
  apply missing_spec in Hs1 as [Hs1 _]. apply missing_spec in Hs2 as [Hs2 _].
  rewrite Hp. rewrite !disabledDate_addDays.
  do 2 eexists. split; [reflexivity | ]. split; [reflexivity | ].
  unfold earthDate. rewrite Hdate.
  rewrite (apodStringToDate_dateString env y mo d Hv Htz).
  pose proof (dayOffset_increasing s1 s2 Hlt) as H12.
  assert (H1 : 0 <= dayOffset s1 <= 93000000) by (unfold dayOffset; lia).
  assert (H2 : 0 <= dayOffset s2 <= 93000000) by (unfold dayOffset; lia).
  rewrite !addDays_MakeDate
    by (apply local_hour_in_range; (assumption || lia)).
  cbn [Date_lt]. unfold UTC, MakeDate, msPerDay. lia.
Qed.

(** Spirit's sample manifest, five hours behind UTC: sols 1, 2, 5 and 6 are
    missing. *)
Lemma disabled_dates_increasing_behind_UTC_witness :
  exists d1 d2,
    disabledDate behindUTC (Manifest.photos spirit5) 2 = Normal d1 /\
    disabledDate behindUTC (Manifest.photos spirit5) 5 = Normal d2 /\
    Date_lt d1 d2.
Proof.
  destruct (disabled_dates_increasing_behind_UTC behindUTC spirit5
              (mkPhoto 0 "2004-01-05")
              (List.tl (Manifest.photos spirit5)) 2004 1 5)
    as (info & ms & _ & Hms & _ & Hlt).
  - reflexivity.
  - vm_compute. split; discriminate.
  - vm_compute. split; discriminate.
  - reflexivity.
  - vm_compute. repeat split; discriminate.
  - assert (E : ms = [1; 2; 5; 6]) by (vm_compute in Hms; congruence).
    subst ms. apply Hlt; cbn [In]; lia.
Defined.
